(** * Diary buddy: the conversation-to-record pipeline

    A shallow embedding of [src/server.ts] (the record store behind the
    four HTTP routes), [src/src/services/diaryService.ts] (the client of
    those routes and of the generation backend) and the [handleSend]
    handler of [src/src/App.tsx] (the reconciliation of one generation
    result into store writes and a conversation turn).

    JavaScript strings are modelled as [string] (the UTF-8 bytes of the
    text).  Floating point is not modelled: a JavaScript number is
    represented by the observations this program can make of it. *)

From Stdlib Require Import String Ascii List ZArith Bool Lia DecimalString.
From Stdlib Require Import Permutation Sorted.
Import ListNotations.
Open Scope string_scope.
Open Scope Z_scope.
Set Warnings "-register-all".

(** ** JavaScript values *)

Module JS.

(** A number, seen through what the code can observe: whether it is
    falsy (zero or NaN), whether it is finite ([JSON.stringify] writes
    [null] otherwise), its [ToString] rendering and the text SQLite
    stores when the number is bound to a TEXT column. *)
Record Number : Type := mkNumber {
  num_truthy : bool;
  num_finite : bool;
  num_text : string;
  num_sql_text : string
}.

Inductive value : Type :=
| Undefined
| Null
| Bool (b : bool)
| Num (n : Number)
| Str (s : string)
| Arr (elems : list value)
| Obj (props : list (string * value)).

(** [ToBoolean]: what [if (v)], [v && w], [v ? a : b] and [!v] test. *)
Definition truthy (v : value) : bool :=
  match v with
  | Undefined | Null => false
  | Bool b => b
  | Num n => num_truthy n
  | Str s => negb (String.eqb s "")
  | Arr _ | Obj _ => true
  end.

(** Own property lookup in a property list: when a key occurs twice the
    later occurrence is the one in force. *)
Fixpoint lookup (k : string) (props : list (string * value)) : option value :=
  match props with
  | [] => None
  | (k', v) :: rest =>
      match lookup k rest with
      | Some w => Some w
      | None => if String.eqb k k' then Some v else None
      end
  end.

(** [v.k] for the property names this program reads ([summary],
    [learning], [chatResponse], [updatedPreferences], [key], [value]),
    none of which a primitive or an array carries.  [None] is the
    TypeError raised on [null] and [undefined]. *)
Definition get (v : value) (k : string) : option value :=
  match v with
  | Undefined | Null => None
  | Obj props =>
      match lookup k props with
      | Some w => Some w
      | None => Some Undefined
      end
  | Bool _ | Num _ | Str _ | Arr _ => Some Undefined
  end.

(** [Array.prototype.join] on elements that are already text. *)
Fixpoint join (sep : string) (l : list string) : string :=
  match l with
  | [] => ""
  | [x] => x
  | x :: rest => x ++ sep ++ join sep rest
  end.

(** [ToString], as applied by a template literal and by a computed
    property key. *)
Fixpoint to_string (v : value) : string :=
  match v with
  | Undefined => "undefined"
  | Null => "null"
  | Bool true => "true"
  | Bool false => "false"
  | Num n => num_text n
  | Str s => s
  | Arr elems =>
      join "," (map (fun e => match e with
                              | Undefined | Null => ""
                              | _ => to_string e
                              end) elems)
  | Obj _ => "[object Object]"
  end.

End JS.

(** ** Objects built by the program

    An object the code builds ([{}] filled by [acc[k] = v], or
    [{...prev, [key]: value}]) is its property list in enumeration order:
    array-index keys first, ascending, then the other keys in insertion
    order; keys are unique. *)

Module JSObject.
Import JS.

Definition is_digit (c : ascii) : bool :=
  let n := Z.of_nat (nat_of_ascii c) in (48 <=? n) && (n <=? 57).

Fixpoint digits_value (acc : Z) (s : string) : option Z :=
  match s with
  | EmptyString => Some acc
  | String c rest =>
      if is_digit c
      then digits_value (10 * acc + (Z.of_nat (nat_of_ascii c) - 48)) rest
      else None
  end.

(** The canonical numeric strings of the integers 0 .. 2^32 - 2. *)
Definition array_index (k : string) : option Z :=
  match k with
  | EmptyString => None
  | String c rest =>
      if (Ascii.eqb c "0") && negb (String.eqb rest "") then None
      else match digits_value 0 k with
           | Some n => if n <=? 4294967294 then Some n else None
           | None => None
           end
  end.

Fixpoint has_key (k : string) (props : list (string * value)) : bool :=
  match props with
  | [] => false
  | (k', _) :: rest => String.eqb k k' || has_key k rest
  end.

Fixpoint replace (k : string) (v : value) (props : list (string * value))
  : list (string * value) :=
  match props with
  | [] => []
  | (k', w) :: rest =>
      if String.eqb k k' then (k', v) :: rest else (k', w) :: replace k v rest
  end.

Fixpoint insert_index (i : Z) (k : string) (v : value)
  (props : list (string * value)) : list (string * value) :=
  match props with
  | [] => [(k, v)]
  | (k', w) :: rest =>
      match array_index k' with
      | Some j => if j <? i then (k', w) :: insert_index i k v rest
                  else (k, v) :: props
      | None => (k, v) :: props
      end
  end.

(** The property [k] created or overwritten as an own data property:
    what a computed key in an object literal, [{ ...prev, [k]: v }],
    does. *)
Definition define (k : string) (v : value) (props : list (string * value))
  : list (string * value) :=
  if has_key k props then replace k v props
  else match array_index k with
       | Some i => insert_index i k v props
       | None => props ++ [(k, v)]
       end.

(** [obj[k] = v] on an object that was created as [{}].  The key
    [__proto__] reaches the accessor inherited from [Object.prototype],
    which changes the prototype or does nothing, and creates no own
    property. *)
Definition set (k : string) (v : value) (props : list (string * value))
  : list (string * value) :=
  if String.eqb k "__proto__" then props else define k v props.

End JSObject.

(** ** The record store: [src/server.ts] *)

Module Server.
Import JS.

(** A row of [entries]: [content TEXT NOT NULL], [summary TEXT],
    [learning TEXT] ([None] is NULL); [created_at] is the value of
    CURRENT_TIMESTAMP at the insert, in whole seconds. *)
Record EntryRow : Type := mkEntryRow {
  id : Z;
  content : string;
  summary : option string;
  learning : option string;
  created_at : Z
}.

(** A row of [preferences]: [key TEXT PRIMARY KEY] (SQLite accepts NULL
    in a primary key that is not an INTEGER one), [value TEXT NOT NULL]. *)
Record PrefRow : Type := mkPrefRow {
  key : option string;
  value : string
}.

(** The database [diary.db]: both tables in rowid order, and the
    AUTOINCREMENT sequence of [entries] (the largest id ever given). *)
Record Db : Type := mkDb {
  entries : list EntryRow;
  last_id : Z;
  preferences : list PrefRow
}.

(** The tables as [db.exec] creates them. *)
Definition empty_db : Db := mkDb [] 0 [].

(** What better-sqlite3 binds to a [?] of a TEXT column: numbers (kept
    as text by the column's affinity), strings and [null]; any other
    value makes [run] throw a TypeError ([None]). *)
Definition bind_text (v : JS.value) : option (option string) :=
  match v with
  | Null => Some None
  | Str s => Some (Some s)
  | Num n => Some (Some (num_sql_text n))
  | Undefined | Bool _ | Arr _ | Obj _ => None
  end.

(** The reply of a route: the JSON value passed to [res.json], or the
    500 page express sends when the handler throws. *)
Inductive Reply : Type :=
| Json (body : JS.value)
| Error500.

Definition num_of_Z (z : Z) : Number :=
  let text := NilZero.string_of_int (Z.to_int z) in
  mkNumber (negb (z =? 0)) true text (text ++ ".0").

(** [ORDER BY created_at DESC].  SQL leaves the order of rows with equal
    [created_at] open; the model keeps them in rowid order. *)
Fixpoint insert_desc (r : EntryRow) (sorted : list EntryRow) : list EntryRow :=
  match sorted with
  | [] => [r]
  | r' :: rest =>
      if created_at r <? created_at r' then r' :: insert_desc r rest
      else r :: sorted
  end.

Fixpoint order_by_created_at_desc (rows : list EntryRow) : list EntryRow :=
  match rows with
  | [] => []
  | r :: rest => insert_desc r (order_by_created_at_desc rest)
  end.

(** [app.get("/api/entries")]: the rows, most recent first. *)
Definition get_entries (db : Db) : list EntryRow :=
  order_by_created_at_desc (entries db).

(** [app.post("/api/entries")] at time [now], with [req.body = body]. *)
Definition post_entries (now : Z) (body : JS.value) (db : Db) : Db * Reply :=
  match get body "content", get body "summary", get body "learning" with
  | Some c, Some s, Some l =>
      match bind_text c, bind_text s, bind_text l with
      | Some (Some c'), Some s', Some l' =>
          let new_id := last_id db + 1 in
          (mkDb (entries db ++ [mkEntryRow new_id c' s' l' now])
                new_id (preferences db),
           Json (Obj [("id", Num (num_of_Z new_id))]))
      | _, _, _ => (db, Error500)
      end
  | _, _, _ => (db, Error500)
  end.

Definition same_key (k : string) (r : PrefRow) : bool :=
  match key r with
  | Some k' => String.eqb k k'
  | None => false
  end.

(** [INSERT OR REPLACE]: the row holding the same (non-NULL) key is
    deleted, then the new row is inserted. *)
Definition insert_or_replace (k : option string) (v : string)
  (rows : list PrefRow) : list PrefRow :=
  match k with
  | Some k' => filter (fun r => negb (same_key k' r)) rows ++ [mkPrefRow k v]
  | None => rows ++ [mkPrefRow k v]
  end.

(** [app.post("/api/preferences")] with [req.body = body]. *)
Definition post_preferences (body : JS.value) (db : Db) : Db * Reply :=
  match get body "key", get body "value" with
  | Some k, Some v =>
      match bind_text k, bind_text v with
      | Some k', Some (Some v') =>
          (mkDb (entries db) (last_id db)
                (insert_or_replace k' v' (preferences db)),
           Json (Obj [("success", Bool true)]))
      | _, _ => (db, Error500)
      end
  | _, _ => (db, Error500)
  end.

(** The key under which [acc[curr.key] = curr.value] stores a row. *)
Definition row_key (r : PrefRow) : string :=
  match key r with
  | Some k => k
  | None => "null"
  end.

(** [app.get("/api/preferences")]: the rows folded into one object. *)
Definition get_preferences (db : Db) : list (string * JS.value) :=
  fold_left (fun acc curr => JSObject.set (row_key curr) (Str (value curr)) acc)
            (preferences db) [].

(** A row as the data model wants it: a content that is not empty, and
    a summary and a learning that are neither NULL nor empty. *)
Definition filled (text : option string) : bool :=
  match text with
  | Some t => negb (String.eqb t "")
  | None => false
  end.

Definition row_ok (r : EntryRow) : bool :=
  negb (String.eqb (content r) "") && filled (summary r) && filled (learning r).

Definition entries_ok (db : Db) : Prop :=
  forall r, In r (entries db) -> row_ok r = true.

End Server.

(** ** Exceptions

    A computation over a world [W] that returns a value or throws; what
    it did to the world before throwing stays done. *)

Module Exn.

Definition M (W A : Type) : Type := W -> W * option A.

Definition ret {W A} (a : A) : M W A := fun w => (w, Some a).
Definition throw {W A} : M W A := fun w => (w, None).

Definition bind {W A B} (m : M W A) (k : A -> M W B) : M W B :=
  fun w => match m w with
           | (w', Some a) => k a w'
           | (w', None) => (w', None)
           end.

(** [const x = e] where evaluating [e] may throw without touching the
    world. *)
Definition lift {W A} (o : option A) : M W A :=
  fun w => (w, o).

Definition modify {W} (f : W -> W) : M W unit := fun w => (f w, Some tt).

Definition when {W} (c : bool) (m : M W unit) : M W unit :=
  if c then m else ret tt.

End Exn.

Declare Scope exn_scope.
Delimit Scope exn_scope with exn.
Notation "x <- m ;; k" := (Exn.bind m (fun x => k))
  (at level 61, m at next level, right associativity) : exn_scope.
Notation "m ;;; k" := (Exn.bind m (fun _ => k))
  (at level 61, right associativity) : exn_scope.

(** ** Text helpers *)

Definition nl : string := String (ascii_of_nat 10) "".
Definition dq : string := String (ascii_of_nat 34) "".

Definition code (c : ascii) : Z := Z.of_nat (nat_of_ascii c).

(** The one-byte white space and line terminators of ECMAScript:
    TAB, LF, VT, FF, CR and SPACE. *)
Definition ws1 (x : Z) : bool :=
  ((9 <=? x) && (x <=? 13)) || (x =? 32).

(** The three-byte ones, as UTF-8: U+1680, U+2000..U+200A, U+2028,
    U+2029, U+202F, U+205F, U+3000 and U+FEFF. *)
Definition ws3 (x y z : Z) : bool :=
  ((x =? 225) && (y =? 154) && (z =? 128))
  || ((x =? 226) && (y =? 128)
      && (((128 <=? z) && (z <=? 138)) || (z =? 168) || (z =? 169) || (z =? 175)))
  || ((x =? 226) && (y =? 129) && (z =? 159))
  || ((x =? 227) && (y =? 128) && (z =? 128))
  || ((x =? 239) && (y =? 187) && (z =? 191)).

(** [!s.trim()]: [s] is empty or made of white space only (U+00A0 is the
    two bytes 194 160). *)
Fixpoint blank (s : string) : bool :=
  match s with
  | EmptyString => true
  | String a r1 =>
      if ws1 (code a) then blank r1
      else match r1 with
           | EmptyString => false
           | String b r2 =>
               if (code a =? 194) && (code b =? 160) then blank r2
               else match r2 with
                    | EmptyString => false
                    | String c r3 =>
                        if ws3 (code a) (code b) (code c) then blank r3
                        else false
                    end
           end
  end.

(** ** The service layer: [src/src/services/diaryService.ts] *)

Module diaryService.
Import JS.
Local Open Scope exn_scope.

(** [interface DiaryEntry].  The fields hold whatever was assigned at run
    time; [Undefined] is an absent optional field. *)
Record DiaryEntry : Type := mkDiaryEntry {
  id : JS.value;
  content : JS.value;
  summary : JS.value;
  learning : JS.value;
  created_at : JS.value
}.

(** [interface UserPreferences]: an object used as a map. *)
Definition UserPreferences : Type := list (string * JS.value).

(** What [req.body] holds after [JSON.stringify] on the client and
    [express.json()] on the server: properties whose value is
    [undefined] are left out, [undefined] in an array and numbers that
    are not finite become [null]. *)
Fixpoint wire (v : JS.value) : JS.value :=
  match v with
  | Undefined => Null
  | Null => Null
  | Bool b => Bool b
  | Num n => if num_finite n then Num n else Null
  | Str s => Str s
  | Arr elems => Arr (map wire elems)
  | Obj props =>
      Obj ((fix wire_props (ps : list (string * JS.value)) :=
              match ps with
              | [] => []
              | (k, Undefined) :: rest => wire_props rest
              | (k, w) :: rest => (k, wire w) :: wire_props rest
              end) props)
  end.

Definition entry_object (entry : DiaryEntry) : JS.value :=
  Obj [("id", id entry); ("content", content entry);
       ("summary", summary entry); ("learning", learning entry);
       ("created_at", created_at entry)].

(** [saveEntry(entry)]: [fetch] rejects when the server is not reached;
    [res.json()] throws on the 500 page.  [now] is the server's clock. *)
Definition saveEntry (reached : bool) (now : Z) (entry : DiaryEntry)
  : Exn.M Server.Db JS.value :=
  if reached
  then fun db =>
         match Server.post_entries now (wire (entry_object entry)) db with
         | (db', Server.Json body) => (db', Some body)
         | (db', Server.Error500) => (db', None)
         end
  else Exn.throw.

(** [savePreference(key, value)]: [fetch] rejects when the server is not
    reached; the reply is not looked at. *)
Definition savePreference (reached : bool) (key value : JS.value)
  : Exn.M Server.Db unit :=
  if reached
  then fun db =>
         (fst (Server.post_preferences
                 (wire (Obj [("key", key); ("value", value)])) db),
          Some tt)
  else Exn.throw.

(** The context block of [generateDiary]. *)
Definition prefString (preferences : UserPreferences) : string :=
  join nl (map (fun kv => fst kv ++ ": " ++ to_string (snd kv)) preferences).

Definition historyString (history : list DiaryEntry) : string :=
  join (nl ++ nl)
       (map (fun h => "Past Entry: " ++ to_string (summary h) ++ nl
                      ++ "Learning: " ++ to_string (learning h))
            (firstn 3 history)).

Definition systemInstruction (preferences : UserPreferences)
  (history : list DiaryEntry) : string :=
  "You are a helpful student diary assistant. " ++ nl ++
  "Your goal is to help the user write their daily work summary and learning outcomes." ++ nl ++
  "Style: Student-like, simple English, relatable, slightly informal but organized." ++ nl ++
  "Tone: Encouraging and reflective." ++ nl ++ nl ++
  "User Preferences:" ++ nl ++
  prefString preferences ++ nl ++ nl ++
  "Context from past entries:" ++ nl ++
  historyString history ++ nl ++ nl ++
  "When the user provides their day's content, generate a JSON object with:" ++ nl ++
  "1. " ++ dq ++ "summary" ++ dq ++ ": A concise summary of what they did today in a student style." ++ nl ++
  "2. " ++ dq ++ "learning" ++ dq ++ ": What they learned from these activities." ++ nl ++
  "3. " ++ dq ++ "chatResponse" ++ dq ++ ": A friendly message to the user acknowledging their day and maybe asking a follow-up or giving a small piece of advice." ++ nl ++ nl ++
  "If the user is just chatting or providing personal details/preferences, update your understanding and respond naturally in the " ++ dq ++ "chatResponse" ++ dq ++ " field, leaving " ++ dq ++ "summary" ++ dq ++ " and " ++ dq ++ "learning" ++ dq ++ " empty or as appropriate." ++ nl ++ nl ++
  "Always return JSON.".

(** What [ai.models.generateContent] does: it rejects, or it resolves
    to a response whose [text] is a string or [undefined]. *)
Inductive Response : Type :=
| Rejected
| Resolved (text : option string).

(** The generation backend: from the system instruction and the user's
    message to a response. *)
Definition Backend : Type := string -> string -> Response.

(** [response.text || "{}"]. *)
Definition text_or_empty_object (text : option string) : string :=
  match text with
  | Some t => if String.eqb t "" then "{}" else t
  | None => "{}"
  end.

Section GenerateDiary.

(** [JSON.parse]; [None] is the SyntaxError it throws. *)
Variable JSON_parse : string -> option JS.value.

(** [generateDiary(content, preferences, history)]; [None] is a thrown
    exception (a rejected request or a SyntaxError). *)
Definition generateDiary (backend : Backend) (content : string)
  (preferences : UserPreferences) (history : list DiaryEntry)
  : option JS.value :=
  match backend (systemInstruction preferences history) content with
  | Rejected => None
  | Resolved text => JSON_parse (text_or_empty_object text)
  end.

End GenerateDiary.

End diaryService.

(** ** The session and its reconciliation step: [src/src/App.tsx] *)

Module App.
Import JS.
Import diaryService.
Local Open Scope exn_scope.

Inductive Role : Type := user | assistant.

(** The optional [data] of a message, [{ summary, learning }]; a
    message whose [data] is [null] or left out has [None]. *)
Record AttachedRecord : Type := mkAttachedRecord {
  data_summary : JS.value;
  data_learning : JS.value
}.

Record Message : Type := mkMessage {
  role : Role;
  msg_content : JS.value;
  data : option AttachedRecord
}.

(** The [useState] cells of [App] that [handleSend] reads or writes. *)
Record State : Type := mkState {
  entries : list DiaryEntry;
  preferences : UserPreferences;
  input : string;
  isLoading : bool;
  messages : list Message
}.

(** The session together with the store it talks to. *)
Record World : Type := mkWorld {
  state : State;
  db : Server.Db
}.

(** What one run of [handleSend] meets outside the program: the
    generation backend, whether each of the two POST requests reaches the
    server, the server's clock at the insert and the client's
    [new Date().toISOString()]. *)
Record Env : Type := mkEnv {
  backend : Backend;
  pref_reached : bool;
  entry_reached : bool;
  now : Z;
  now_iso : string
}.

Definition setInput (v : string) (w : World) : World :=
  let s := state w in
  mkWorld (mkState (entries s) (preferences s) v (isLoading s) (messages s))
          (db w).

Definition setIsLoading (v : bool) (w : World) : World :=
  let s := state w in
  mkWorld (mkState (entries s) (preferences s) (input s) v (messages s))
          (db w).

Definition setMessages (f : list Message -> list Message) (w : World) : World :=
  let s := state w in
  mkWorld (mkState (entries s) (preferences s) (input s) (isLoading s)
                   (f (messages s)))
          (db w).

Definition setPreferences (f : UserPreferences -> UserPreferences)
  (w : World) : World :=
  let s := state w in
  mkWorld (mkState (entries s) (f (preferences s)) (input s) (isLoading s)
                   (messages s))
          (db w).

Definition setEntries (f : list DiaryEntry -> list DiaryEntry)
  (w : World) : World :=
  let s := state w in
  mkWorld (mkState (f (entries s)) (preferences s) (input s) (isLoading s)
                   (messages s))
          (db w).

(** A call of the service layer, which acts on the store only. *)
Definition call {A} (m : Exn.M Server.Db A) : Exn.M World A :=
  fun w => match m (db w) with
           | (db', r) => (mkWorld (state w) db', r)
           end.

(** The text of the [catch] branch. *)
Definition fallback_text : string :=
  "Oops, something went wrong. Can you try again?".

Definition fallback_message : Message :=
  mkMessage assistant (Str fallback_text) None.

(** What a call of [handleSend] holds on to across its [await]s: the
    message and the [preferences] and [entries] of the render it was
    created in. *)
Record Run : Type := mkRun {
  userMessage : string;
  run_preferences : UserPreferences;
  run_entries : list DiaryEntry
}.

(** [handleSend] up to its first [await]: the guard, then the three
    state updates.  [None] is the early [return]. *)
Definition begin (w : World) : option (Run * World) :=
  let s := state w in
  if blank (input s) || isLoading s then None
  else
    let userMessage := input s in
    let w1 := setInput "" w in
    let w2 := setMessages
                (fun prev => (prev ++ [mkMessage user (Str userMessage) None])%list)
                w1 in
    let w3 := setIsLoading true w2 in
    Some (mkRun userMessage (preferences s) (entries s), w3).

Section HandleSend.

Variable JSON_parse : string -> option JS.value.

(** [if (result.updatedPreferences) { ... }]. *)
Definition update_preferences_block (env : Env) (result : JS.value)
  : Exn.M World unit :=
  updatedPreferences <- Exn.lift (get result "updatedPreferences") ;;
  Exn.when (truthy updatedPreferences)
    (key <- Exn.lift (get updatedPreferences "key") ;;
     value <- Exn.lift (get updatedPreferences "value") ;;
     Exn.when (truthy key && truthy value)
       (call (savePreference (pref_reached env) key value) ;;;
        Exn.modify (setPreferences
                      (fun prev => JSObject.define (to_string key) value prev)))).

(** [if (result.summary && result.learning) { ... }]. *)
Definition create_entry_block (env : Env) (userMessage : string)
  (result : JS.value) : Exn.M World unit :=
  summary <- Exn.lift (get result "summary") ;;
  learning <- Exn.lift (get result "learning") ;;
  Exn.when (truthy summary && truthy learning)
    (let newEntry :=
       mkDiaryEntry Undefined (Str userMessage) summary learning Undefined in
     reply <- call (saveEntry (entry_reached env) (now env) newEntry) ;;
     id <- Exn.lift (get reply "id") ;;
     Exn.modify (setEntries
                   (fun prev => mkDiaryEntry id (Str userMessage) summary
                                  learning (Str (now_iso env)) :: prev))).

(** The assistant turn built from a result. *)
Definition reply_message (chatResponse summary learning : JS.value) : Message :=
  mkMessage assistant chatResponse
    (if truthy summary then Some (mkAttachedRecord summary learning) else None).

(** [setMessages(prev => [...prev, { role: 'assistant', ... }])]. *)
Definition append_reply (result : JS.value) : Exn.M World unit :=
  chatResponse <- Exn.lift (get result "chatResponse") ;;
  summary <- Exn.lift (get result "summary") ;;
  learning <- Exn.lift (get result "learning") ;;
  Exn.modify (setMessages
                (fun prev =>
                   (prev ++ [reply_message chatResponse summary learning])%list)).

(** The body of the [try] block.  [userMessage], [preferences] and
    [entries] are the values [handleSend] captured when it was called. *)
Definition try_block (env : Env) (userMessage : string)
  (preferences : UserPreferences) (entries : list DiaryEntry)
  : Exn.M World unit :=
  result <- Exn.lift (generateDiary JSON_parse (backend env) userMessage
                                    preferences entries) ;;
  update_preferences_block env result ;;;
  create_entry_block env userMessage result ;;;
  append_reply result.

(** [try { ... } catch (error) { ... } finally { setIsLoading(false) }]. *)
Definition try_catch_finally (env : Env) (userMessage : string)
  (preferences : UserPreferences) (entries : list DiaryEntry)
  (w : World) : World :=
  match try_block env userMessage preferences entries w with
  | (w', Some _) => setIsLoading false w'
  | (w', None) =>
      setIsLoading false
        (setMessages (fun prev => (prev ++ [fallback_message])%list) w')
  end.

(** [handleSend()], run to completion. *)
Definition handleSend (env : Env) (w : World) : World :=
  match begin w with
  | None => w
  | Some (run, w') =>
      try_catch_finally env (userMessage run) (run_preferences run)
                        (run_entries run) w'
  end.

End HandleSend.

(** Whether a result makes the run send a preference upsert, and whether
    it makes the run send an entry create. *)
Definition upsert_attempted (result : JS.value) : bool :=
  match get result "updatedPreferences" with
  | Some updatedPreferences =>
      truthy updatedPreferences
      && match get updatedPreferences "key", get updatedPreferences "value" with
         | Some key, Some value => truthy key && truthy value
         | _, _ => false
         end
  | None => false
  end.

Definition entry_attempted (result : JS.value) : bool :=
  match get result "summary", get result "learning" with
  | Some summary, Some learning => truthy summary && truthy learning
  | _, _ => false
  end.

(** The response schema declares [summary] and [learning] as strings:
    a result that respects it has each of them absent or a string. *)
Definition text_or_absent (v : JS.value) : Prop :=
  v = Undefined \/ exists s, v = Str s.

Definition text_fields (result : JS.value) : Prop :=
  forall v, (get result "summary" = Some v \/ get result "learning" = Some v) ->
            text_or_absent v.


(** The world after an entry create that the server accepted: the row
    appended to the table, the new entry at the front of the snapshot. *)
Definition with_entry (env : Env) (msg : string) (s l : JS.value)
  (s' l' : option string) (w : World) : World :=
  mkWorld
    (mkState
       (mkDiaryEntry (Num (Server.num_of_Z (Server.last_id (db w) + 1)))
          (Str msg) s l (Str (now_iso env)) :: entries (state w))
       (preferences (state w)) (input (state w)) (isLoading (state w))
       (messages (state w)))
    (Server.mkDb
       (Server.entries (db w)
        ++ [Server.mkEntryRow (Server.last_id (db w) + 1) msg s' l' (now env)])
       (Server.last_id (db w) + 1) (Server.preferences (db w))).

End App.

(** ** Sample data

    The replies and sessions used in the examples.  [JSON.parse] is a
    parameter of the development; [Samples.parse] is its restriction to
    the sample replies: a reply of the table parses to its row, and the
    one text outside it that the examples use, [not_json], is not JSON. *)

Module Samples.
Import JS.
Import diaryService.
Import App.

Definition field (k v : string) : string := dq ++ k ++ dq ++ ":" ++ dq ++ v ++ dq.

(** [{"summary":"Studied algorithms","learning":"Merge sort works by
    divide and conquer","chatResponse":"Nice work today!"}] *)
Definition reply_entry : string :=
  "{" ++ field "summary" "Studied algorithms" ++ ","
      ++ field "learning" "Merge sort works by divide and conquer" ++ ","
      ++ field "chatResponse" "Nice work today!" ++ "}".

Definition value_entry : JS.value :=
  Obj [("summary", Str "Studied algorithms");
       ("learning", Str "Merge sort works by divide and conquer");
       ("chatResponse", Str "Nice work today!")].

(** [{"chatResponse":"Good to know!","updatedPreferences":{"key":
    "favorite_subject","value":"math"}}] *)
Definition reply_preference : string :=
  "{" ++ field "chatResponse" "Good to know!" ++ ","
      ++ dq ++ "updatedPreferences" ++ dq ++ ":{"
      ++ field "key" "favorite_subject" ++ ","
      ++ field "value" "math" ++ "}}".

Definition value_preference : JS.value :=
  Obj [("chatResponse", Str "Good to know!");
       ("updatedPreferences",
        Obj [("key", Str "favorite_subject"); ("value", Str "math")])].

(** [{"summary":"Did homework","chatResponse":"Nice!"}] *)
Definition reply_summary_only : string :=
  "{" ++ field "summary" "Did homework" ++ ","
      ++ field "chatResponse" "Nice!" ++ "}".

Definition value_summary_only : JS.value :=
  Obj [("summary", Str "Did homework"); ("chatResponse", Str "Nice!")].

(** [{"summary":"Studied algorithms","learning":"Merge sort",
    "updatedPreferences":{"key":"favorite_subject","value":"math"}}] *)
Definition reply_no_chat : string :=
  "{" ++ field "summary" "Studied algorithms" ++ ","
      ++ field "learning" "Merge sort" ++ ","
      ++ dq ++ "updatedPreferences" ++ dq ++ ":{"
      ++ field "key" "favorite_subject" ++ ","
      ++ field "value" "math" ++ "}}".

Definition value_no_chat : JS.value :=
  Obj [("summary", Str "Studied algorithms");
       ("learning", Str "Merge sort");
       ("updatedPreferences",
        Obj [("key", Str "favorite_subject"); ("value", Str "math")])].

(** [{"chatResponse":"Got it!","updatedPreferences":{"key":"likes_math",
    "value":true}}]: a preference value the store cannot bind. *)
Definition reply_flag : string :=
  "{" ++ field "chatResponse" "Got it!" ++ ","
      ++ dq ++ "updatedPreferences" ++ dq ++ ":{"
      ++ field "key" "likes_math" ++ ","
      ++ dq ++ "value" ++ dq ++ ":true}}".

Definition value_flag : JS.value :=
  Obj [("chatResponse", Str "Got it!");
       ("updatedPreferences",
        Obj [("key", Str "likes_math"); ("value", Bool true)])].

(** [Infinity], the number [JSON.parse] makes of [1e999]. *)
Definition infinity : Number := mkNumber true false "Infinity" "Inf".

(** [{"summary":1e999,"learning":"Merge sort","chatResponse":"Nice!"}]:
    a summary that is not the string the response schema asks for. *)
Definition reply_huge : string :=
  "{" ++ dq ++ "summary" ++ dq ++ ":1e999,"
      ++ field "learning" "Merge sort" ++ ","
      ++ field "chatResponse" "Nice!" ++ "}".

Definition value_huge : JS.value :=
  Obj [("summary", Num infinity); ("learning", Str "Merge sort");
       ("chatResponse", Str "Nice!")].

Definition not_json : string := "Sorry, I cannot help with that.".

Definition table : list (string * JS.value) :=
  [("{}", Obj []);
   (reply_entry, value_entry);
   (reply_preference, value_preference);
   (reply_summary_only, value_summary_only);
   (reply_no_chat, value_no_chat);
   (reply_flag, value_flag);
   (reply_huge, value_huge)].

Definition parse (text : string) : option JS.value :=
  match find (fun row => String.eqb text (fst row)) table with
  | Some row => Some (snd row)
  | None => None
  end.

(** A backend that answers every request with the same reply. *)
Definition replies (text : option string) : Backend :=
  fun _ _ => Resolved text.

Definition unreachable_backend : Backend := fun _ _ => Rejected.

(** An environment in which every request reaches its server. *)
Definition env_ok (b : Backend) : Env :=
  mkEnv b true true 1700000000 "2023-11-14T22:13:20.000Z".

(** A fresh session on an empty store, after [loadData], with [text]
    typed into the input box. *)
Definition greeting : Message :=
  mkMessage assistant
    (Str "Hey! I'm your student diary buddy. How was your day? Just tell me what you did or what's on your mind, and I'll help you summarize it and track your learning!")
    None.

Definition fresh (text : string) : World :=
  mkWorld (mkState [] [] text false [greeting]) Server.empty_db.

End Samples.

(** ** The session as a machine

    Between two event handlers React commits the state updates of the
    first, so every call of [handleSend] sees the current state cells.
    A call that passes the guard stays in flight until its generation
    request and store writes are over; meanwhile the user may type and
    may try to send again. *)

Module Session.
Import App.

Record Session : Type := mkSession {
  world : World;
  in_flight : list Run
}.

Inductive Event : Type :=
| Typed (text : string)            (* [onChange] of the text area *)
| Send                             (* Enter, or a click on the button *)
| Settled (i : nat) (env : Env).   (* the [i]-th call in flight runs to its end *)

Fixpoint drop_nth {A} (i : nat) (l : list A) : list A :=
  match i, l with
  | _, [] => []
  | O, _ :: rest => rest
  | S j, x :: rest => x :: drop_nth j rest
  end.

Section Machine.

Variable JSON_parse : string -> option JS.value.

Definition step (s : Session) (e : Event) : Session :=
  match e with
  | Typed text => mkSession (setInput text (world s)) (in_flight s)
  | Send =>
      match begin (world s) with
      | None => s
      | Some (run, w') => mkSession w' (run :: in_flight s)
      end
  | Settled i env =>
      match nth_error (in_flight s) i with
      | None => s
      | Some run =>
          mkSession
            (try_catch_finally JSON_parse env (userMessage run)
               (run_preferences run) (run_entries run) (world s))
            (drop_nth i (in_flight s))
      end
  end.

Definition run_events (s : Session) (events : list Event) : Session :=
  fold_left step events s.

End Machine.

(** A session with nothing in flight. *)
Definition idle (w : World) : Session := mkSession w [].

(** While the loading flag is down nothing is in flight, and there is
    never more than one call in flight. *)
Definition guarded (s : Session) : Prop :=
  (isLoading (state (world s)) = false -> in_flight s = [])
  /\ (length (in_flight s) <= 1)%nat.

End Session.

(** ** The context block as the specification words it

    Preferences and entries here are the typed records of the data
    model: text keys, text values, text summaries and learnings. *)

Module ContextSpec.
Import diaryService.

Record Preference : Type := mkPreference {
  pref_key : string;
  pref_value : string
}.

Record Entry : Type := mkEntry {
  entry_summary : string;
  entry_learning : string
}.

(** ["<key>: <value>"] *)
Definition render_preference (p : Preference) : string :=
  pref_key p ++ ": " ++ pref_value p.

(** ["Past Entry: <summary>\nLearning: <learning>"] *)
Definition render_entry (e : Entry) : string :=
  "Past Entry: " ++ entry_summary e ++ nl ++ "Learning: " ++ entry_learning e.

(** The pieces written one after the other with [sep] between two
    neighbours. *)
Definition joined_by (sep : string) (pieces : list string) : string :=
  match pieces with
  | [] => ""
  | first :: others => fold_left (fun text p => text ++ sep ++ p) others first
  end.

(** At most the three entries at the front of a most-recent-first
    history. *)
Definition three_most_recent (history : list Entry) : list Entry :=
  match history with
  | a :: b :: c :: _ => [a; b; c]
  | _ => history
  end.

Definition preference_block (prefs : list Preference) : string :=
  joined_by nl (map render_preference prefs).

Definition history_block (history : list Entry) : string :=
  joined_by (nl ++ nl) (map render_entry (three_most_recent history)).

(** The objects the code receives for these records. *)
Definition preferences_object (prefs : list Preference) : UserPreferences :=
  map (fun p => (pref_key p, JS.Str (pref_value p))) prefs.

Definition entry_record (e : Entry) : DiaryEntry :=
  mkDiaryEntry JS.Undefined JS.Undefined (JS.Str (entry_summary e))
               (JS.Str (entry_learning e)) JS.Undefined.

End ContextSpec.

(** ** Sequences of preference writes *)

Module PreferenceWrites.
Import JS.

(** The pairs [(key, value)] of the data model, written one after the
    other through [savePreference], every request reaching the server. *)
Definition write_all (writes : list (string * string)) (db : Server.Db)
  : Server.Db :=
  fold_left
    (fun db kv => fst (diaryService.savePreference true (Str (fst kv))
                         (Str (snd kv)) db))
    writes db.

(** The value of the most recent write with key [k], if there is one. *)
Fixpoint last_write (k : string) (writes : list (string * string))
  : option string :=
  match writes with
  | [] => None
  | (k', v) :: rest =>
      match last_write k rest with
      | Some v' => Some v'
      | None => if String.eqb k k' then Some v else None
      end
  end.



(** What [listPreferences()] answers for key [k]. *)
Definition listed (k : string) (db : Server.Db) : option JS.value :=
  lookup k (Server.get_preferences db).

(** The value of the last row stored under the property name [k]. *)
Fixpoint latest (k : string) (rows : list Server.PrefRow) : option string :=
  match rows with
  | [] => None
  | r :: rest =>
      match latest k rest with
      | Some v => Some v
      | None => if String.eqb k (Server.row_key r)
                then Some (Server.value r) else None
      end
  end.

End PreferenceWrites.

(** ** Reading the store back: [getEntries], [getPreferences], [loadData] *)

Module Loading.
Import JS.
Import diaryService.
Import App.

Section Load.

(** The text SQLite keeps for a CURRENT_TIMESTAMP taken at a given
    second ("YYYY-MM-DD HH:MM:SS"); the calendar is not modelled. *)
Variable timestamp_text : Z -> string.

Definition nullable (text : option string) : JS.value :=
  match text with
  | Some t => Str t
  | None => Null
  end.

(** A row of [entries] as the client receives it from
    [res.json(entries)]. *)
Definition row_entry (r : Server.EntryRow) : DiaryEntry :=
  mkDiaryEntry (Num (Server.num_of_Z (Server.id r))) (Str (Server.content r))
    (nullable (Server.summary r)) (nullable (Server.learning r))
    (Str (timestamp_text (Server.created_at r))).

(** [getEntries()]: [None] when [fetch] rejects. *)
Definition getEntries (reached : bool) (db : Server.Db)
  : option (list DiaryEntry) :=
  if reached then Some (map row_entry (Server.get_entries db)) else None.

(** An object written by [JSON.stringify] and read back by [JSON.parse]:
    the properties are created again one by one, in the order of the
    text. *)
Definition reparsed (props : list (string * JS.value)) : list (string * JS.value) :=
  match wire (Obj props) with
  | Obj written =>
      fold_left (fun acc kv => JSObject.define (fst kv) (snd kv) acc) written []
  | _ => []
  end.

(** [getPreferences()]: [None] when [fetch] rejects. *)
Definition getPreferences (reached : bool) (db : Server.Db)
  : option UserPreferences :=
  if reached then Some (reparsed (Server.get_preferences db)) else None.

(** The first turn of a session. *)
Definition greeting : Message :=
  mkMessage assistant
    (Str "Hey! I'm your student diary buddy. How was your day? Just tell me what you did or what's on your mind, and I'll help you summarize it and track your learning!")
    None.

(** [loadData()].  [messages] is the turn sequence of the render the
    function was created in (the effect that calls it runs once, after
    the first render); [entries_reached] and [prefs_reached] tell whether
    each GET request reaches the server.  When [Promise.all] rejects,
    nothing after the [await] runs. *)
Definition loadData (messages : list Message)
  (entries_reached prefs_reached : bool) (w : World) : World :=
  match getEntries entries_reached (db w),
        getPreferences prefs_reached (db w) with
  | Some fetchedEntries, Some fetchedPrefs =>
      let w1 := setEntries (fun _ => fetchedEntries) w in
      let w2 := setPreferences (fun _ => fetchedPrefs) w1 in
      if (length messages =? 0)%nat
      then setMessages (fun _ => [greeting]) w2
      else w2
  | _, _ => w
  end.

End Load.

(** How a template literal writes a column that may be NULL. *)
Definition shown_text (text : option string) : string :=
  match text with
  | Some t => t
  | None => "null"
  end.

(** The two lines of the context block that come from one stored row. *)
Definition row_context (r : Server.EntryRow) : string :=
  "Past Entry: " ++ shown_text (Server.summary r) ++ nl
  ++ "Learning: " ++ shown_text (Server.learning r).

End Loading.

(** ** What the chat tab shows *)

Module View.
Import App.

(** [disabled={!input.trim() || isLoading}] of the send button. *)
Definition send_disabled (s : State) : bool :=
  blank (input s) || isLoading s.

(** The [onKeyDown] handler of the text area: Enter without Shift calls
    [handleSend]; every other key is left to the text area. *)
Definition sends_on_key (key : string) (shiftKey : bool) : bool :=
  String.eqb key "Enter" && negb shiftKey.

(** [{msg.data && ( ... Diary Entry Created ... )}]. *)
Definition shows_entry_card (m : Message) : bool :=
  match data m with
  | Some _ => true
  | None => false
  end.

(** Whether a text holds a printable ASCII character other than the
    space. *)
Fixpoint has_visible_ascii (s : string) : bool :=
  match s with
  | EmptyString => false
  | String c rest =>
      ((33 <=? code c) && (code c <=? 126)) || has_visible_ascii rest
  end.

End View.

(** ** Invariants of the store and of its mirror in the session *)

Module Mirror.
Import JS.
Import diaryService.
Import App.


(** The preference snapshot reads like [listPreferences()]: unique keys,
    and the same answer for every key. *)
Definition preferences_mirrored (w : World) : Prop :=
  NoDup (map fst (preferences (state w)))
  /\ forall k, lookup k (preferences (state w))
               = PreferenceWrites.listed k (db w).

(** A snapshot entry and a stored row that carry the same id, content,
    summary and learning (the two time stamps are taken by different
    clocks). *)
Definition same_entry (e : DiaryEntry) (r : Server.EntryRow) : Prop :=
  id e = Num (Server.num_of_Z (Server.id r))
  /\ content e = Str (Server.content r)
  /\ summary e = Loading.nullable (Server.summary r)
  /\ learning e = Loading.nullable (Server.learning r).

(** The entry snapshot lists the stored rows, most recent first. *)
Definition entries_mirrored (w : World) : Prop :=
  Forall2 same_entry (entries (state w)) (Server.get_entries (db w)).

(** The properties of an object as [wire] writes them. *)
Fixpoint wire_props (ps : list (string * JS.value)) : list (string * JS.value) :=
  match ps with
  | [] => []
  | (k, Undefined) :: rest => wire_props rest
  | (k, w) :: rest => (k, diaryService.wire w) :: wire_props rest
  end.

(** [l] with something written after it. *)
Definition extends {A} (l l' : list A) : Prop := exists more, l' = (l ++ more)%list.

(** [v.k], with [undefined] where the access would throw. *)
Definition field (v : JS.value) (k : string) : JS.value :=
  match get v k with
  | Some x => x
  | None => Undefined
  end.


(** Whether the server accepts the entry [handleSend] posts for a
    summary and a learning. *)
Definition accepted (s l : JS.value) : bool :=
  match Server.bind_text (wire s), Server.bind_text (wire l) with
  | Some _, Some _ => true
  | _, _ => false
  end.

(** The text the entries table keeps for a posted value. *)
Definition bound (v : JS.value) : option string :=
  match Server.bind_text (wire v) with
  | Some t => t
  | None => None
  end.

(** A run of [handleSend] that passed the guard, in closed form: [gen]
    is what [generateDiary] returned ([None] when it threw) and [w] the
    world at the call. *)
Definition run_outcome (env : Env) (gen : option JS.value) (w : World) : World :=
  let msg := input (state w) in
  let result := match gen with Some r => r | None => Null end in
  let up := field result "updatedPreferences" in
  let s := field result "summary" in
  let l := field result "learning" in
  let c := field result "chatResponse" in
  let alive := match get result "updatedPreferences" with
               | Some _ => true
               | None => false
               end in
  let upserted := upsert_attempted result && pref_reached env in
  let past_upsert :=
    alive && negb (upsert_attempted result && negb (pref_reached env)) in
  let created :=
    past_upsert && entry_attempted result && entry_reached env && accepted s l in
  let replied :=
    past_upsert
    && (negb (entry_attempted result) || (entry_reached env && accepted s l)) in
  let db2 :=
    if upserted
    then fst (Server.post_preferences
                (wire (Obj [("key", field up "key"); ("value", field up "value")]))
                (db w))
    else db w in
  mkWorld
    (mkState
       (if created
        then mkDiaryEntry (Num (Server.num_of_Z (Server.last_id (db w) + 1)))
               (Str msg) s l (Str (now_iso env)) :: entries (state w)
        else entries (state w))
       (if upserted
        then JSObject.define (to_string (field up "key")) (field up "value")
               (preferences (state w))
        else preferences (state w))
       "" false
       (messages (state w)
        ++ [mkMessage user (Str msg) None;
            if replied then reply_message c s l else fallback_message])%list)
    (if created
     then Server.mkDb
            (Server.entries db2
             ++ [Server.mkEntryRow (Server.last_id (db w) + 1) msg (bound s)
                   (bound l) (now env)])%list
            (Server.last_id (db w) + 1) (Server.preferences db2)
     else db2).

End Mirror.

(** * Properties *)

Section JoinFacts.

Lemma append_assoc' (a b c : string) : (a ++ b) ++ c = a ++ (b ++ c).
Proof.
  induction a as [|ch a IH]; simpl; [reflexivity | now rewrite IH].
Qed.

Lemma fold_join (sep : string) (rest : list string) :
  forall prefix x,
    fold_left (fun text p => text ++ sep ++ p) rest (prefix ++ x)
    = prefix ++ JS.join sep (x :: rest).
Proof.
  induction rest as [|y rest IH]; intros prefix x.
  - reflexivity.
  - cbn [fold_left].
    replace ((prefix ++ x) ++ sep ++ y) with ((prefix ++ x ++ sep) ++ y)
      by (now rewrite !append_assoc').
    rewrite IH. change (JS.join sep (x :: y :: rest))
      with (x ++ sep ++ JS.join sep (y :: rest)).
    now rewrite !append_assoc'.
Qed.

Lemma joined_by_join (sep : string) (pieces : list string) :
  ContextSpec.joined_by sep pieces = JS.join sep pieces.
Proof.
  destruct pieces as [|x rest]; [reflexivity|].
  unfold ContextSpec.joined_by.
  exact (fold_join sep rest "" x).
Qed.

End JoinFacts.

(** C5. The context builder refines the specification's wording: the
    preference block is every preference as "<key>: <value>" joined by
    newlines, the history block is the first three entries of the
    history (all of them when there are fewer) as
    "Past Entry: <summary>\nLearning: <learning>" joined by blank lines,
    never more than three, and empty text for an empty history. *)
Theorem context_builder_refines_spec :
  forall (prefs : list ContextSpec.Preference) (history : list ContextSpec.Entry),
    diaryService.prefString (ContextSpec.preferences_object prefs)
      = ContextSpec.preference_block prefs
    /\ diaryService.historyString (map ContextSpec.entry_record history)
      = ContextSpec.history_block history
    /\ (length (ContextSpec.three_most_recent history) <= 3)%nat
    /\ ContextSpec.three_most_recent history = firstn 3 history
    /\ diaryService.historyString [] = "".
Proof.
  intros prefs history.
  assert (Hthree : ContextSpec.three_most_recent history = firstn 3 history).
  { destruct history as [|a [|b [|c rest]]]; reflexivity. }
  repeat split.
  - unfold diaryService.prefString, ContextSpec.preference_block,
      ContextSpec.preferences_object.
    rewrite joined_by_join, map_map. reflexivity.
  - unfold diaryService.historyString, ContextSpec.history_block.
    rewrite joined_by_join, Hthree, firstn_map, map_map. reflexivity.
  - rewrite Hthree. apply firstn_le_length.
  - exact Hthree.
Qed.

(** C10. A submission whose input is empty or white space only changes
    nothing: [handleSend] returns at its guard, so the session (turns,
    snapshots, input) and the store are what they were, whatever the
    backend and the network would have answered. *)
Theorem blank_input_is_noop :
  forall (JSON_parse : string -> option JS.value) (env : App.Env) (w : App.World),
    blank (App.input (App.state w)) = true ->
    App.begin w = None /\ App.handleSend JSON_parse env w = w.
Proof.
  intros JSON_parse env w Hblank.
  assert (Hbegin : App.begin w = None).
  { unfold App.begin. now rewrite Hblank. }
  split; [exact Hbegin|].
  unfold App.handleSend. now rewrite Hbegin.
Qed.

Lemma blank_input_is_noop_witness :
  blank (App.input (App.state (Samples.fresh "   "))) = true
  /\ App.handleSend Samples.parse
       (Samples.env_ok (Samples.replies (Some Samples.reply_entry)))
       (Samples.fresh "   ")
     = Samples.fresh "   ".
Proof.
  split; [reflexivity|].
  apply (blank_input_is_noop Samples.parse
           (Samples.env_ok (Samples.replies (Some Samples.reply_entry)))
           (Samples.fresh "   ")).
  reflexivity.
Defined.

(** ** The generation client *)




(** ** Reconciliation *)

Section Reconciliation.
Import JS diaryService App.

Lemma begin_passes (w : World) :
  blank (input (state w)) = false ->
  isLoading (state w) = false ->
  begin w =
    Some (mkRun (input (state w)) (preferences (state w)) (entries (state w)),
          mkWorld (mkState (entries (state w)) (preferences (state w)) "" true
                     (messages (state w)
                      ++ [mkMessage user (Str (input (state w))) None])%list)
                  (db w)).
Proof.
  intros Hblank Hloading. unfold begin. now rewrite Hblank, Hloading.
Qed.

Lemma begin_guard (w : World) (run : Run) (w' : World) :
  begin w = Some (run, w') ->
  blank (input (state w)) = false /\ isLoading (state w) = false.
Proof.
  unfold begin.
  destruct (blank (input (state w))); [discriminate|].
  destruct (isLoading (state w)); [discriminate|]. now split.
Qed.

End Reconciliation.




(** C2, evaluated where it breaks.  For a result with a summary and no
    learning the entry step is skipped (nothing reaches the store, the
    in-memory history is unchanged), yet the assistant turn carries an
    attached record. *)
Lemma attached_record_without_entry :
  let w' := App.handleSend Samples.parse
              (Samples.env_ok (Samples.replies (Some Samples.reply_summary_only)))
              (Samples.fresh "Did my homework") in
  last (App.messages (App.state w')) App.fallback_message
    = App.mkMessage App.assistant (JS.Str "Nice!")
        (Some (App.mkAttachedRecord (JS.Str "Did homework") JS.Undefined))
  /\ Server.entries (App.db w') = []
  /\ App.entries (App.state w') = [].
Proof.
  cbv zeta. repeat split; reflexivity.
Qed.

(** ** One submission at a time *)

Section OneInFlight.
Import App Session.

Variable JSON_parse : string -> option JS.value.

Lemma begin_raises_flag (w : World) (run : Run) (w' : World) :
  begin w = Some (run, w') -> isLoading (state w') = true.
Proof.
  unfold begin.
  destruct (blank (input (state w)) || isLoading (state w)); [discriminate|].
  intros H. inversion H. reflexivity.
Qed.

Lemma step_guarded (s : Session) (e : Event) :
  guarded s -> guarded (step JSON_parse s e).
Proof.
  intros [Hidle Hone]. destruct e as [text | | i env]; cbn [step].
  - split; cbn; assumption.
  - destruct (begin (world s)) as [[run w']|] eqn:Hbegin.
    + destruct (begin_guard _ _ _ Hbegin) as [_ Hflag].
      rewrite (Hidle Hflag). split; cbn.
      * rewrite (begin_raises_flag _ _ _ Hbegin). discriminate.
      * lia.
    + now split.
  - destruct (nth_error (in_flight s) i) as [run|] eqn:Hnth; [|now split].
    destruct (in_flight s) as [|r [|r' rest]]; cbn in Hone; try lia.
    + destruct i; discriminate.
    + destruct i as [|[|j]]; cbn in Hnth; try discriminate.
      split; cbn; [reflexivity | lia].
Qed.

Lemma run_events_guarded (events : list Event) :
  forall s, guarded s -> guarded (run_events JSON_parse s events).
Proof.
  induction events as [|e events IH]; intros s Hs; cbn.
  - exact Hs.
  - apply IH, step_guarded, Hs.
Qed.

End OneInFlight.

(** C9. From a session with nothing in flight, whatever the user types
    and however often they send, at most one call of [handleSend] is in
    flight at any time, and a send that arrives while one is pending is
    rejected: it changes neither the session nor the store. *)
Theorem one_submit_in_flight :
  forall (JSON_parse : string -> option JS.value) (w : App.World)
         (events : list Session.Event),
    App.isLoading (App.state w) = false ->
    let s := Session.run_events JSON_parse (Session.idle w) events in
    (length (Session.in_flight s) <= 1)%nat
    /\ (Session.in_flight s <> [] ->
        Session.step JSON_parse s Session.Send = s).
Proof.
  intros JSON_parse w events Hflag s.
  assert (Hs : Session.guarded s).
  { apply run_events_guarded. split; cbn; [reflexivity | lia]. }
  destruct Hs as [Hidle Hone]. split; [exact Hone|].
  intros Hbusy. cbn [Session.step]. unfold App.begin.
  destruct (App.isLoading (App.state (Session.world s))) eqn:Hl.
  - now rewrite orb_true_r.
  - elim Hbusy. now apply Hidle.
Qed.

Lemma one_submit_in_flight_witness :
  let s := Session.run_events Samples.parse
             (Session.idle (Samples.fresh "Studied algorithms"))
             [Session.Send; Session.Typed "More"; Session.Send] in
  (length (Session.in_flight s) <= 1)%nat
  /\ (Session.in_flight s <> [] -> Session.step Samples.parse s Session.Send = s).
Proof.
  apply (one_submit_in_flight Samples.parse (Samples.fresh "Studied algorithms")
           [Session.Send; Session.Typed "More"; Session.Send]).
  reflexivity.
Defined.

(** ** The preference store *)

Section ObjectFacts.
Import JS JSObject.

Implicit Types (props : list (string * JS.value)) (k : string) (v : JS.value).

Lemma has_key_In k props : has_key k props = true <-> In k (map fst props).
Proof.
  induction props as [|[k' w] props IH]; cbn.
  - split; [discriminate | tauto].
  - rewrite orb_true_iff, IH, String.eqb_eq. split; intros [H|H]; auto.
Qed.

Lemma lookup_absent k props : ~ In k (map fst props) -> lookup k props = None.
Proof.
  induction props as [|[k' w] props IH]; cbn; intros H; [reflexivity|].
  rewrite IH by tauto.
  destruct (String.eqb_spec k k'); [|reflexivity]. subst. tauto.
Qed.

Lemma lookup_In k v props : lookup k props = Some v -> In (k, v) props.
Proof.
  induction props as [|[k' w] props IH]; cbn; [discriminate|].
  destruct (lookup k props) as [x|].
  - intros H. right. apply IH. exact H.
  - destruct (String.eqb_spec k k'); [|discriminate].
    intros H. inversion H. subst. now left.
Qed.

Lemma In_lookup k v props :
  NoDup (map fst props) -> In (k, v) props -> lookup k props = Some v.
Proof.
  induction props as [|[k' w] props IH]; cbn; intros Hnd Hin; [tauto|].
  inversion Hnd as [|? ? Hnotin Hnd']; subst.
  destruct Hin as [Heq | Hin].
  - inversion Heq; subst. rewrite (lookup_absent _ _ Hnotin).
    now rewrite String.eqb_refl.
  - now rewrite (IH Hnd' Hin).
Qed.

Lemma replace_keys k v props : map fst (replace k v props) = map fst props.
Proof.
  induction props as [|[k' w] props IH]; cbn; [reflexivity|].
  destruct (String.eqb k k'); cbn; [reflexivity | now rewrite IH].
Qed.

Lemma replace_In_same k v props :
  In k (map fst props) -> In (k, v) (replace k v props).
Proof.
  induction props as [|[k' w] props IH]; cbn; [tauto|].
  destruct (String.eqb_spec k k') as [->|Hne]; cbn; [now left|].
  intros [H|H]; [congruence | right; auto].
Qed.

Lemma replace_In_other k v k' v' props :
  k' <> k -> In (k', v') (replace k v props) <-> In (k', v') props.
Proof.
  intros Hne. induction props as [|[k0 w] props IH]; cbn; [tauto|].
  destruct (String.eqb_spec k k0) as [->|Hne0]; cbn.
  - split; (intros [H|H]; [inversion H; congruence | now right]).
  - rewrite IH. tauto.
Qed.

Lemma insert_index_In i k v x props :
  In x (insert_index i k v props) <-> x = (k, v) \/ In x props.
Proof.
  induction props as [|[k0 w] props IH]; cbn.
  - intuition congruence.
  - destruct (array_index k0) as [j|]; [destruct (j <? i)%Z|]; cbn;
      try rewrite IH; intuition congruence.
Qed.

Lemma insert_index_keys i k v x props :
  In x (map fst (insert_index i k v props)) <-> x = k \/ In x (map fst props).
Proof.
  induction props as [|[k0 w] props IH]; cbn.
  - intuition congruence.
  - destruct (array_index k0) as [j|]; [destruct (j <? i)%Z|]; cbn;
      try rewrite IH; intuition congruence.
Qed.

Lemma insert_index_NoDup i k v props :
  ~ In k (map fst props) -> NoDup (map fst props) ->
  NoDup (map fst (insert_index i k v props)).
Proof.
  induction props as [|[k0 w] props IH]; cbn; intros Hnotin Hnd.
  - constructor; [tauto | constructor].
  - inversion Hnd as [|? ? Hk0 Hnd']; subst.
    assert (Hhead : NoDup (k :: k0 :: map fst props))
      by (constructor; [cbn; tauto | exact Hnd]).
    destruct (array_index k0) as [j|]; [destruct (j <? i)%Z|]; cbn;
      try exact Hhead.
    constructor.
    + rewrite insert_index_keys. intros [->|H]; tauto.
    + apply IH; tauto.
Qed.

Lemma define_keys k v x props :
  In x (map fst (define k v props)) <-> x = k \/ In x (map fst props).
Proof.
  unfold define. destruct (has_key k props) eqn:Hk.
  - rewrite replace_keys. apply has_key_In in Hk.
    split; [tauto | intros [->|H]; assumption].
  - destruct (array_index k) as [i|].
    + apply insert_index_keys.
    + rewrite map_app, in_app_iff. cbn. intuition congruence.
Qed.

Lemma define_NoDup k v props :
  NoDup (map fst props) -> NoDup (map fst (define k v props)).
Proof.
  intros Hnd. unfold define. destruct (has_key k props) eqn:Hk.
  - now rewrite replace_keys.
  - assert (Hnotin : ~ In k (map fst props)).
    { rewrite <- has_key_In. congruence. }
    destruct (array_index k) as [i|].
    + now apply insert_index_NoDup.
    + rewrite map_app. cbn. apply NoDup_app; [exact Hnd | constructor; [tauto|constructor] |].
      intros a Ha [<-|[]]. tauto.
Qed.

Lemma define_In_same k v props : In (k, v) (define k v props).
Proof.
  unfold define. destruct (has_key k props) eqn:Hk.
  - apply replace_In_same, has_key_In, Hk.
  - destruct (array_index k) as [i|].
    + apply insert_index_In. now left.
    + apply in_app_iff. right. now left.
Qed.

Lemma define_In_other k v k' v' props :
  k' <> k -> In (k', v') (define k v props) <-> In (k', v') props.
Proof.
  intros Hne. unfold define. destruct (has_key k props).
  - now apply replace_In_other.
  - destruct (array_index k) as [i|].
    + rewrite insert_index_In. intuition congruence.
    + rewrite in_app_iff. cbn. intuition congruence.
Qed.

Lemma lookup_define_same k v props :
  NoDup (map fst props) -> lookup k (define k v props) = Some v.
Proof.
  intros Hnd. apply In_lookup; [now apply define_NoDup | apply define_In_same].
Qed.

Lemma lookup_define_other k v k' props :
  NoDup (map fst props) -> k' <> k ->
  lookup k' (define k v props) = lookup k' props.
Proof.
  intros Hnd Hne. destruct (lookup k' props) as [x|] eqn:Hl.
  - apply In_lookup; [now apply define_NoDup|].
    apply define_In_other; [exact Hne|]. now apply lookup_In.
  - apply lookup_absent. rewrite define_keys. intros [->|Hin]; [congruence|].
    apply in_map_iff in Hin. destruct Hin as [[k0 x] [Hk0 Hin]]. cbn in Hk0. subst.
    rewrite (In_lookup _ _ _ Hnd Hin) in Hl. discriminate.
Qed.

Lemma set_NoDup k v props :
  NoDup (map fst props) -> NoDup (map fst (set k v props)).
Proof.
  intros Hnd. unfold set.
  destruct (String.eqb k "__proto__"); [exact Hnd | now apply define_NoDup].
Qed.

Lemma lookup_set_same k v props :
  k <> "__proto__" -> NoDup (map fst props) ->
  lookup k (set k v props) = Some v.
Proof.
  intros Hk Hnd. unfold set.
  destruct (String.eqb_spec k "__proto__"); [contradiction|].
  now apply lookup_define_same.
Qed.

Lemma lookup_set_other k v k' props :
  NoDup (map fst props) -> k' <> k ->
  lookup k' (set k v props) = lookup k' props.
Proof.
  intros Hnd Hne. unfold set.
  destruct (String.eqb k "__proto__"); [reflexivity|].
  now apply lookup_define_other.
Qed.

End ObjectFacts.

Section PreferenceStore.
Import Server PreferenceWrites.

Implicit Types (rows : list PrefRow) (k : string).










Lemma fold_set_lookup k rows :
  k <> "__proto__" ->
  forall acc,
    NoDup (map fst acc) ->
    JS.lookup k
      (fold_left (fun acc curr => JSObject.set (row_key curr) (JS.Str (value curr)) acc)
                 rows acc)
    = match latest k rows with
      | Some v => Some (JS.Str v)
      | None => JS.lookup k acc
      end.
Proof.
  intros Hk. induction rows as [|r rows IH]; intros acc Hnd; cbn; [reflexivity|].
  rewrite IH by now apply set_NoDup.
  destruct (latest k rows); [reflexivity|].
  destruct (String.eqb_spec k (row_key r)) as [->|Hne].
  - now apply lookup_set_same.
  - now apply lookup_set_other.
Qed.

Lemma listed_latest k (db : Db) :
  k <> "__proto__" ->
  listed k db = option_map JS.Str (latest k (preferences db)).
Proof.
  intros Hk.
  unfold listed, get_preferences. rewrite (fold_set_lookup k _ Hk) by constructor.
  now destruct (latest k (preferences db)).
Qed.

End PreferenceStore.



(** C7, evaluated where it breaks.  A preference written under the key
    [__proto__] is stored, and [listPreferences()] does not return it:
    the route folds the rows into [{}] with [acc[curr.key] = curr.value],
    which for this key creates no property. *)
Lemma proto_key_is_not_listed :
  let db' := PreferenceWrites.write_all [("__proto__", "math")] Server.empty_db in
  PreferenceWrites.last_write "__proto__" [("__proto__", "math")] = Some "math"
  /\ Server.preferences db' = [Server.mkPrefRow (Some "__proto__") "math"]
  /\ Server.get_preferences db' = []
  /\ PreferenceWrites.listed "__proto__" db' = None.
Proof.
  cbv zeta. repeat split.
Qed.

(** ** The blocks of the [try] body *)

Section Blocks.
Import JS diaryService App.

Lemma post_preferences_keeps_entries (body : JS.value) (db : Server.Db) :
  Server.entries (fst (Server.post_preferences body db)) = Server.entries db
  /\ Server.last_id (fst (Server.post_preferences body db)) = Server.last_id db.
Proof.
  unfold Server.post_preferences.
  destruct (get body "key") as [k|]; [|now split].
  destruct (get body "value") as [v|]; [|now split].
  destruct (Server.bind_text k) as [k'|]; [|now split].
  destruct (Server.bind_text v) as [[v'|]|]; now split.
Qed.

(** The first block touches the preference snapshot and the preference
    table and nothing else; it throws when [result] is [null] and when
    an upsert it sends does not reach the server. *)
Lemma update_preferences_block_effect (env : Env) (result : JS.value) (w : World) :
  exists prefs' rows',
    fst (update_preferences_block env result w)
    = mkWorld
        (mkState (entries (state w)) prefs' (input (state w))
                 (isLoading (state w)) (messages (state w)))
        (Server.mkDb (Server.entries (db w)) (Server.last_id (db w)) rows')
    /\ snd (update_preferences_block env result w)
       = match get result "updatedPreferences" with
         | None => None
         | Some _ =>
             if upsert_attempted result && negb (pref_reached env)
             then None else Some tt
         end.
Proof.
  destruct w as [[es ps i l ms] [des dl dp]].
  unfold update_preferences_block, upsert_attempted, Exn.bind, Exn.lift, Exn.when.
  destruct (get result "updatedPreferences") as [up|]; cbn.
  2:{ now exists ps, dp. }
  destruct (truthy up) eqn:Hup; cbn.
  2:{ now exists ps, dp. }
  destruct up; try discriminate Hup; cbn.
  all: try (now exists ps, dp).
  destruct (lookup "key" props) as [k|], (lookup "value" props) as [v|]; cbn.
  all: try (now exists ps, dp).
  all: unfold Exn.when.
  - destruct (truthy k && truthy v); cbn; [|now exists ps, dp].
    unfold call, savePreference, Exn.bind, Exn.modify, Exn.throw.
    destruct (pref_reached env); cbn; [|now exists ps, dp].
    match goal with |- context [Server.post_preferences ?b ?d] =>
      destruct (post_preferences_keeps_entries b d) as [He Hl];
      destruct (Server.post_preferences b d) as [[des' dl' dp'] rep] end.
    cbn in *. subst. eexists _, _. split; reflexivity.
  - destruct (truthy k && false) eqn:E; [now rewrite andb_false_r in E|].
    cbn. now exists ps, dp.
Qed.

(** What the server does with the entry [handleSend] posts. *)
Lemma post_new_entry (now : Z) (msg : string) (s l : JS.value) (db : Server.Db) :
  truthy s = true -> truthy l = true ->
  Server.post_entries now
    (wire (entry_object (mkDiaryEntry Undefined (Str msg) s l Undefined))) db
  = match Server.bind_text (wire s), Server.bind_text (wire l) with
    | Some s', Some l' =>
        (Server.mkDb
           (Server.entries db
            ++ [Server.mkEntryRow (Server.last_id db + 1) msg s' l' now])
           (Server.last_id db + 1) (Server.preferences db),
         Server.Json (Obj [("id", Num (Server.num_of_Z (Server.last_id db + 1)))]))
    | _, _ => (db, Server.Error500)
    end.
Proof.
  intros Hs Hl.
  destruct s; try discriminate Hs; destruct l; try discriminate Hl;
    cbn; repeat match goal with
         | |- context [num_finite ?n] => destruct (num_finite n); cbn
         end; reflexivity.
Qed.

Lemma create_entry_block_effect (env : Env) (msg : string) (result s l : JS.value)
  (w : World) :
  get result "summary" = Some s ->
  get result "learning" = Some l ->
  create_entry_block env msg result w
  = if truthy s && truthy l
    then if entry_reached env
         then match Server.bind_text (wire s), Server.bind_text (wire l) with
              | Some s', Some l' => (with_entry env msg s l s' l' w, Some tt)
              | _, _ => (w, None)
              end
         else (w, None)
    else (w, Some tt).
Proof.
  intros Hs Hl. destruct w as [st d].
  unfold create_entry_block, Exn.bind, Exn.lift, Exn.when. rewrite Hs, Hl.
  destruct (truthy s) eqn:Ts; [|reflexivity].
  destruct (truthy l) eqn:Tl; [|reflexivity].
  cbn [andb]. unfold call, saveEntry, Exn.throw.
  destruct (entry_reached env); [|reflexivity].
  cbn [db state]. rewrite (post_new_entry _ _ _ _ _ Ts Tl).
  destruct (Server.bind_text (wire s)) as [s'|]; [|reflexivity].
  destruct (Server.bind_text (wire l)) as [l'|]; reflexivity.
Qed.


Lemma get_total (result : JS.value) (k k' : string) (v : JS.value) :
  get result k = Some v -> exists v', get result k' = Some v'.
Proof.
  destruct result; cbn; try discriminate; intros _; eauto.
  destruct (lookup k' props); eauto.
Qed.

Lemma bind_text_field (v : JS.value) :
  text_or_absent v -> truthy v = true ->
  exists t, v = Str t /\ t <> "" /\ Server.bind_text (wire v) = Some (Some t).
Proof.
  intros [->|[t ->]] Ht; [discriminate|].
  exists t. repeat split. cbn in Ht. intros ->. discriminate.
Qed.

Variable JSON_parse : string -> option JS.value.



Lemma finish_db (env : Env) (msg : string) (prefs : UserPreferences)
  (es : list DiaryEntry) (w : World) :
  db (try_catch_finally JSON_parse env msg prefs es w)
  = db (fst (try_block JSON_parse env msg prefs es w)).
Proof.
  unfold try_catch_finally.
  destruct (try_block JSON_parse env msg prefs es w) as [w' [[]|]]; reflexivity.
Qed.

(** The entries table after the [try] block: as before, or with the one
    row of the entry the block posted. *)
Lemma try_block_entries (env : Env) (msg : string) (prefs : UserPreferences)
  (es : list DiaryEntry) (w w' : World) (r : option unit) :
  try_block JSON_parse env msg prefs es w = (w', r) ->
  Server.entries (db w') = Server.entries (db w)
  \/ exists result s l s' l',
       generateDiary JSON_parse (backend env) msg prefs es = Some result
       /\ get result "summary" = Some s /\ get result "learning" = Some l
       /\ truthy s = true /\ truthy l = true
       /\ Server.bind_text (wire s) = Some s'
       /\ Server.bind_text (wire l) = Some l'
       /\ Server.entries (db w')
          = (Server.entries (db w)
             ++ [Server.mkEntryRow (Server.last_id (db w) + 1) msg s' l' (now env)])%list.
Proof.
  unfold try_block, Exn.bind at 1, Exn.lift at 1.
  destruct (generateDiary JSON_parse (backend env) msg prefs es) as [result|] eqn:Hgen.
  2:{ intros H. inversion H. now left. }
  unfold Exn.bind at 1.
  destruct (update_preferences_block_effect env result w) as (prefs' & rows' & Hw2 & Hr2).
  destruct (update_preferences_block env result w) as [w2 r2]. cbn in Hw2, Hr2.
  destruct r2 as [[]|].
  2:{ intros H. inversion H. subst. now left. }
  unfold Exn.bind at 1.
  destruct (get result "summary") as [s|] eqn:Hs.
  2:{ unfold create_entry_block, Exn.bind, Exn.lift. rewrite Hs.
      intros H. inversion H. subst. now left. }
  destruct (get_total result "summary" "learning" s Hs) as [l Hl].
  rewrite (create_entry_block_effect env msg result s l w2 Hs Hl).
  assert (Hframe : forall w3, db (fst (append_reply result w3)) = db w3).
  { intros w3. unfold append_reply, Exn.bind, Exn.lift, Exn.modify.
    destruct (get result "chatResponse"); [|reflexivity].
    rewrite Hs, Hl. reflexivity. }
  assert (Hkeep : forall w3, db w3 = db w2 -> append_reply result w3 = (w', r) ->
                  Server.entries (db w') = Server.entries (db w)).
  { intros w3 H3 H. rewrite <- (Hframe w3) in H3. rewrite H in H3. cbn in H3.
    rewrite H3. subst w2. reflexivity. }
  destruct (truthy s) eqn:Ts; cbn [andb].
  2:{ intros H. left. now apply (Hkeep w2). }
  destruct (truthy l) eqn:Tl.
  2:{ intros H. left. now apply (Hkeep w2). }
  destruct (entry_reached env).
  2:{ intros H. inversion H. subst. now left. }
  destruct (Server.bind_text (wire s)) as [s'|] eqn:Bs.
  2:{ intros H. inversion H. subst. now left. }
  destruct (Server.bind_text (wire l)) as [l'|] eqn:Bl.
  2:{ intros H. inversion H. subst. now left. }
  intros H. right. exists result, s, l, s', l'. repeat split; try assumption.
  pose proof (Hframe (with_entry env msg s l s' l' w2)) as Hf.
  rewrite H in Hf. cbn [fst] in Hf. rewrite Hf. subst w2. reflexivity.
Qed.



Lemma handleSend_entries (env : Env) (w : World) :
  let w' := handleSend JSON_parse env w in
  Server.entries (db w') = Server.entries (db w)
  \/ (blank (input (state w)) = false
      /\ exists result s l s' l',
           generateDiary JSON_parse (backend env) (input (state w))
             (preferences (state w)) (entries (state w)) = Some result
           /\ get result "summary" = Some s /\ get result "learning" = Some l
           /\ truthy s = true /\ truthy l = true
           /\ Server.bind_text (wire s) = Some s'
           /\ Server.bind_text (wire l) = Some l'
           /\ Server.entries (db w')
              = (Server.entries (db w)
                 ++ [Server.mkEntryRow (Server.last_id (db w) + 1)
                       (input (state w)) s' l' (now env)])%list).
Proof.
  cbv zeta. unfold handleSend.
  destruct (begin w) as [[run w1]|] eqn:Hbegin; [|now left].
  destruct (begin_guard _ _ _ Hbegin) as [Hblank Hflag].
  rewrite (begin_passes w Hblank Hflag) in Hbegin. inversion Hbegin; subst run w1.
  cbn [userMessage run_preferences run_entries]. rewrite finish_db.
  match goal with |- context [try_block ?p ?e ?m ?ps ?es ?w1] =>
    destruct (try_block p e m ps es w1) as [w' r] eqn:Htry end.
  apply try_block_entries in Htry. cbn [fst]. cbn [db] in Htry.
  destruct Htry as [Hsame | Hnew]; [now left | right; now split].
Qed.



End Blocks.

(** ** Entries *)



(** C8, as amended.  Every run of [handleSend] whose generation result keeps to the
    response schema (summary and learning are strings when present)
    preserves the invariant of the entries table: every row has a
    non-empty content, a non-empty summary and a non-empty learning. *)
Theorem persisted_entries_are_filled :
  forall (JSON_parse : string -> option JS.value) (env : App.Env) (w : App.World),
    Server.entries_ok (App.db w) ->
    (forall result,
        diaryService.generateDiary JSON_parse (App.backend env)
          (App.input (App.state w)) (App.preferences (App.state w))
          (App.entries (App.state w)) = Some result ->
        App.text_fields result) ->
    Server.entries_ok (App.db (App.handleSend JSON_parse env w)).
Proof.
  intros JSON_parse env w Hok Hschema.
  destruct (handleSend_entries JSON_parse env w)
    as [Hsame | (Hblank & r & s & l & s' & l' & Hgen & Hs & Hl & Ts & Tl & Bs & Bl & Hnew)];
    unfold Server.entries_ok.
  - rewrite Hsame. exact Hok.
  - rewrite Hnew. intros row Hrow. apply in_app_iff in Hrow.
    destruct Hrow as [Hold | [<- | []]]; [now apply Hok|].
    specialize (Hschema r Hgen).
    destruct (bind_text_field s (Hschema s (or_introl Hs)) Ts) as (a & -> & Ha & Ba).
    destruct (bind_text_field l (Hschema l (or_intror Hl)) Tl) as (b & -> & Hb & Bb).
    rewrite Ba in Bs. rewrite Bb in Bl. inversion Bs. inversion Bl. subst s' l'.
    unfold Server.row_ok. cbn.
    destruct (String.eqb_spec (App.input (App.state w)) "") as [Hempty|_].
    { rewrite Hempty in Hblank. discriminate. }
    destruct (String.eqb_spec a ""); [contradiction|].
    destruct (String.eqb_spec b ""); [contradiction|]. reflexivity.
Qed.

Lemma persisted_entries_are_filled_witness :
  Server.entries_ok
    (App.db (App.handleSend Samples.parse
               (Samples.env_ok (Samples.replies (Some Samples.reply_entry)))
               (Samples.fresh "Studied algorithms, learned merge sort."))).
Proof.
  apply (persisted_entries_are_filled Samples.parse
           (Samples.env_ok (Samples.replies (Some Samples.reply_entry)))
           (Samples.fresh "Studied algorithms, learned merge sort.")).
  - intros r [].
  - intros result Hgen. vm_compute in Hgen. inversion Hgen; subst result.
    intros v [Hv|Hv]; vm_compute in Hv; inversion Hv; right; eauto.
Defined.

(** C8 fails as stated: the write path itself, [saveEntry] and the
    route behind it, stores an entry whose content, summary and learning
    are empty, and one whose summary and learning are [null]; and a run
    of [handleSend] on a result whose summary is not a string can store
    a row without a summary. *)
Lemma saveEntry_accepts_empty_fields :
  let blank_entry :=
    diaryService.mkDiaryEntry JS.Undefined (JS.Str "") (JS.Str "") (JS.Str "")
      JS.Undefined in
  let null_entry :=
    diaryService.mkDiaryEntry JS.Undefined (JS.Str "Studied") JS.Null JS.Null
      JS.Undefined in
  let w' := App.handleSend Samples.parse
              (Samples.env_ok (Samples.replies (Some Samples.reply_huge)))
              (Samples.fresh "Studied algorithms") in
  Server.entries
    (fst (diaryService.saveEntry true 1700000000 blank_entry Server.empty_db))
  = [Server.mkEntryRow 1 "" (Some "") (Some "") 1700000000]
  /\ Server.row_ok (Server.mkEntryRow 1 "" (Some "") (Some "") 1700000000) = false
  /\ ~ Server.entries_ok
         (fst (diaryService.saveEntry true 1700000000 blank_entry Server.empty_db))
  /\ Server.entries
       (fst (diaryService.saveEntry true 1700000000 null_entry Server.empty_db))
     = [Server.mkEntryRow 1 "Studied" None None 1700000000]
  /\ Server.entries (App.db w')
     = [Server.mkEntryRow 1 "Studied algorithms" None (Some "Merge sort")
          1700000000]
  /\ ~ Server.entries_ok (App.db w').
Proof.
  cbv zeta. repeat split.
  - intros Hok. specialize (Hok _ (or_introl eq_refl)). discriminate Hok.
  - intros Hok. specialize (Hok _ (or_introl eq_refl)). discriminate Hok.
Qed.

(** ** Store failures and the reply *)




(** * Further properties of the store, the service layer and the session *)

(** ** The routes *)

Section Listing.
Import Server.

Lemma insert_desc_perm (r : EntryRow) (l : list EntryRow) :
  Permutation (insert_desc r l) (r :: l).
Proof.
  induction l as [|r' l IH]; cbn; [reflexivity|].
  destruct (created_at r <? created_at r'); [|reflexivity].
  rewrite IH. apply perm_swap.
Qed.

Lemma insert_desc_sorted (r : EntryRow) (l : list EntryRow) :
  StronglySorted (fun a b => created_at b <= created_at a) l ->
  StronglySorted (fun a b => created_at b <= created_at a) (insert_desc r l).
Proof.
  induction l as [|r' l IH]; cbn; intros Hs.
  - repeat constructor.
  - inversion Hs as [|? ? Hrest Hall]; subst.
    destruct (Z.ltb_spec (created_at r) (created_at r')) as [Hlt|Hge].
    + constructor; [now apply IH|].
      rewrite Forall_forall. intros x Hx.
      apply (Permutation_in _ (insert_desc_perm r l)) in Hx.
      destruct Hx as [<-|Hx]; [lia|].
      rewrite Forall_forall in Hall. now apply Hall.
    + constructor; [exact Hs|].
      constructor; [lia|].
      rewrite Forall_forall in *. intros x Hx. specialize (Hall x Hx). lia.
Qed.

End Listing.

(** [GET /api/entries] returns every stored row exactly once, and no
    row comes before a row with a later time stamp. *)
Theorem listEntries_sorted_permutation :
  forall db : Server.Db,
    Permutation (Server.get_entries db) (Server.entries db)
    /\ StronglySorted
         (fun newer older => Server.created_at older <= Server.created_at newer)
         (Server.get_entries db).
Proof.
  intros db. unfold Server.get_entries.
  induction (Server.entries db) as [|r rows [IHp IHs]]; cbn.
  - split; constructor.
  - split.
    + rewrite insert_desc_perm. now constructor.
    + now apply insert_desc_sorted.
Qed.

Section Routes.
Import Server.



End Routes.




(** ** A run in closed form *)

Section Runs.
Import JS diaryService App Mirror.

(** The first block, step by step. *)
Lemma update_preferences_block_run (env : Env) (result : JS.value) (w : World) :
  update_preferences_block env result w
  = match get result "updatedPreferences" with
    | None => (w, None)
    | Some up =>
        if upsert_attempted result
        then if pref_reached env
             then (mkWorld
                     (mkState (entries (state w))
                        (JSObject.define (to_string (field up "key"))
                           (field up "value") (preferences (state w)))
                        (input (state w)) (isLoading (state w))
                        (messages (state w)))
                     (fst (Server.post_preferences
                             (wire (Obj [("key", field up "key");
                                         ("value", field up "value")]))
                             (db w))),
                   Some tt)
             else (w, None)
        else (w, Some tt)
    end.
Proof.
  destruct w as [[es ps i l ms] d].
  unfold update_preferences_block, upsert_attempted, field, Exn.bind, Exn.lift, Exn.when.
  destruct (get result "updatedPreferences") as [up|]; [|reflexivity].
  destruct (truthy up) eqn:Hup; [|reflexivity].
  destruct up; try discriminate Hup; cbn; try reflexivity.
  destruct (lookup "key" props) as [k|], (lookup "value" props) as [v|]; cbn.
  - unfold Exn.when. destruct (truthy k && truthy v); [|reflexivity].
    unfold call, savePreference, Exn.bind, Exn.modify, Exn.throw.
    destruct (pref_reached env); [|reflexivity]. cbn.
    destruct (Server.post_preferences _ d); reflexivity.
  - unfold Exn.when. rewrite andb_false_r. reflexivity.
  - reflexivity.
  - reflexivity.
Qed.

End Runs.

Section Outcome.
Import JS diaryService App Mirror.

Variable JSON_parse : string -> option JS.value.

Lemma get_field (v : JS.value) (k : string) (x : JS.value) :
  get v k = Some x -> field v k = x.
Proof. unfold field. now intros ->. Qed.

Lemma handleSend_outcome (env : Env) (w : World) :
  blank (input (state w)) = false ->
  isLoading (state w) = false ->
  handleSend JSON_parse env w
  = run_outcome env
      (generateDiary JSON_parse (backend env) (input (state w))
         (preferences (state w)) (entries (state w)))
      w.
Proof.
  intros Hblank Hflag. unfold handleSend. rewrite (begin_passes w Hblank Hflag).
  cbn [userMessage run_preferences run_entries].
  unfold try_catch_finally, try_block, Exn.bind at 1, Exn.lift at 1.
  destruct (generateDiary JSON_parse (backend env) (input (state w))
              (preferences (state w)) (entries (state w))) as [result|].
  2:{ unfold run_outcome, setIsLoading, setMessages. cbn.
      now rewrite <- app_assoc. }
  unfold Exn.bind at 1. rewrite update_preferences_block_run.
  unfold run_outcome. cbv zeta.
  cbn [db state entries preferences input isLoading messages].
  destruct (get result "updatedPreferences") as [up|] eqn:Hup.
  2:{ unfold upsert_attempted. rewrite Hup.
      unfold setIsLoading, setMessages. cbn. now rewrite <- app_assoc. }
  rewrite (get_field _ _ _ Hup).
  destruct (get_total result "updatedPreferences" "summary" up Hup) as [s Hs].
  destruct (get_total result "updatedPreferences" "learning" up Hup) as [l Hl].
  destruct (get_total result "updatedPreferences" "chatResponse" up Hup) as [c Hc].
  rewrite (get_field _ _ _ Hs), (get_field _ _ _ Hl), (get_field _ _ _ Hc).
  assert (Hattempt : entry_attempted result = truthy s && truthy l).
  { unfold entry_attempted. now rewrite Hs, Hl. }
  rewrite Hattempt.
  assert (Hreply : forall w3,
             append_reply result w3
             = (setMessages (fun prev => (prev ++ [reply_message c s l])%list) w3,
                Some tt)).
  { intros w3. unfold append_reply, Exn.bind, Exn.lift, Exn.modify.
    now rewrite Hc, Hs, Hl. }
  pose proof (post_preferences_keeps_entries
                (wire (Obj [("key", field up "key"); ("value", field up "value")]))
                (db w)) as [He Hlast].
  destruct (Server.post_preferences
              (wire (Obj [("key", field up "key"); ("value", field up "value")]))
              (db w)) as [[e2 lid2 p2] rep].
  cbn [fst Server.entries Server.last_id] in He, Hlast. subst e2 lid2.
  cbn [fst].
  destruct (upsert_attempted result); cbn [andb negb].
  - destruct (pref_reached env); cbn [andb negb].
    2:{ unfold setIsLoading, setMessages. cbn. now rewrite <- app_assoc. }
    unfold Exn.bind.
    rewrite (create_entry_block_effect env _ result s l _ Hs Hl).
    destruct (truthy s && truthy l); cbn [andb negb orb].
    2:{ rewrite Hreply. unfold setIsLoading, setMessages. cbn.
        now rewrite <- app_assoc. }
    destruct (entry_reached env); cbn [andb negb orb].
    2:{ unfold setIsLoading, setMessages. cbn. now rewrite <- app_assoc. }
    unfold accepted, bound.
    destruct (Server.bind_text (wire s)) as [s'|].
    2:{ unfold setIsLoading, setMessages. cbn. now rewrite <- app_assoc. }
    destruct (Server.bind_text (wire l)) as [l'|].
    2:{ unfold setIsLoading, setMessages. cbn. now rewrite <- app_assoc. }
    rewrite Hreply. unfold setIsLoading, setMessages, with_entry. cbn.
    now rewrite <- app_assoc.
  - unfold Exn.bind.
    rewrite (create_entry_block_effect env _ result s l _ Hs Hl).
    destruct (truthy s && truthy l); cbn [andb negb orb].
    2:{ rewrite Hreply. unfold setIsLoading, setMessages. cbn.
        now rewrite <- app_assoc. }
    destruct (entry_reached env); cbn [andb negb orb].
    2:{ unfold setIsLoading, setMessages. cbn. now rewrite <- app_assoc. }
    unfold accepted, bound.
    destruct (Server.bind_text (wire s)) as [s'|].
    2:{ unfold setIsLoading, setMessages. cbn. now rewrite <- app_assoc. }
    destruct (Server.bind_text (wire l)) as [l'|].
    2:{ unfold setIsLoading, setMessages. cbn. now rewrite <- app_assoc. }
    rewrite Hreply. unfold setIsLoading, setMessages, with_entry. cbn.
    now rewrite <- app_assoc.
Qed.

End Outcome.

(** ** What every run does *)

Section OutcomeFacts.
Import JS diaryService App Mirror.

Lemma run_outcome_entries (env : Env) (gen : option JS.value) (w : World) :
  let w' := run_outcome env gen w in
  (Server.entries (db w') = Server.entries (db w)
   /\ entries (state w') = entries (state w))
  \/ exists row e m,
       Server.entries (db w') = (Server.entries (db w) ++ [row])%list
       /\ entries (state w') = e :: entries (state w)
       /\ Server.id row = Server.last_id (db w) + 1
       /\ Server.content row = input (state w)
       /\ Server.created_at row = now env
       /\ id e = Num (Server.num_of_Z (Server.id row))
       /\ content e = Str (Server.content row)
       /\ messages (state w')
          = (messages (state w)
             ++ [mkMessage user (Str (input (state w))) None; m])%list
       /\ role m = assistant
       /\ View.shows_entry_card m = true.
Proof.
  cbv zeta. unfold run_outcome. cbv zeta.
  set (result := match gen with Some r => r | None => Null end).
  pose proof (post_preferences_keeps_entries
                (wire (Obj [("key", field (field result "updatedPreferences") "key");
                            ("value", field (field result "updatedPreferences") "value")]))
                (db w)) as [He Hlast].
  destruct (Server.post_preferences
              (wire (Obj [("key", field (field result "updatedPreferences") "key");
                          ("value", field (field result "updatedPreferences") "value")]))
              (db w)) as [db2 rep].
  cbn [fst] in He, Hlast.
  assert (Hdb2 : Server.entries
                   (if upsert_attempted result && pref_reached env then db2 else db w)
                 = Server.entries (db w)).
  { now destruct (upsert_attempted result && pref_reached env). }
  destruct (match get result "updatedPreferences" with Some _ => true | None => false end
            && negb (upsert_attempted result && negb (pref_reached env))) eqn:Hpast;
    cbn [andb]; [|left; now split].
  destruct (entry_attempted result) eqn:Hent; cbn [andb negb orb]; [|left; now split].
  destruct (entry_reached env); cbn [andb]; [|left; now split].
  destruct (accepted (field result "summary") (field result "learning"));
    [|left; now split].
  right. eexists _, _, _. cbn. rewrite Hdb2. repeat split.
  unfold View.shows_entry_card, reply_message. cbn.
  unfold entry_attempted, field in *.
  destruct (get result "summary") as [s|]; [|discriminate].
  destruct (get result "learning") as [l|]; [|discriminate].
  apply andb_true_iff in Hent. destruct Hent as [-> _]. reflexivity.
Qed.

Variable JSON_parse : string -> option JS.value.

Lemma handleSend_at_guard (env : Env) (w : World) :
  blank (input (state w)) || isLoading (state w) = true ->
  handleSend JSON_parse env w = w.
Proof.
  intros Hguard. unfold handleSend, begin. now rewrite Hguard.
Qed.

Lemma handleSend_cases (env : Env) (w : World) :
  handleSend JSON_parse env w = w
  \/ (blank (input (state w)) = false
      /\ isLoading (state w) = false
      /\ handleSend JSON_parse env w
         = run_outcome env
             (generateDiary JSON_parse (backend env) (input (state w))
                (preferences (state w)) (entries (state w)))
             w).
Proof.
  destruct (blank (input (state w))) eqn:Hblank.
  { left. apply handleSend_at_guard. now rewrite Hblank. }
  destruct (isLoading (state w)) eqn:Hflag.
  { left. apply handleSend_at_guard. now rewrite Hblank, Hflag. }
  right. repeat split. now apply handleSend_outcome.
Qed.

End OutcomeFacts.

(** Every call of [handleSend] that passes the guard, whatever the
    backend, the network and the store do, adds the user's turn and
    exactly one assistant turn after it, clears the input box and ends
    with the loading flag down, so that the next message can be sent. *)
Theorem run_appends_user_and_assistant_turn :
  forall (JSON_parse : string -> option JS.value) (env : App.Env) (w : App.World),
    blank (App.input (App.state w)) = false ->
    App.isLoading (App.state w) = false ->
    let w' := App.handleSend JSON_parse env w in
    (exists m,
        App.messages (App.state w')
        = (App.messages (App.state w)
           ++ [App.mkMessage App.user (JS.Str (App.input (App.state w))) None; m])%list
        /\ App.role m = App.assistant)
    /\ App.isLoading (App.state w') = false
    /\ App.input (App.state w') = "".
Proof.
  intros JSON_parse env w Hblank Hflag w'. unfold w'.
  rewrite (handleSend_outcome JSON_parse env w Hblank Hflag).
  unfold Mirror.run_outcome. cbn. repeat split.
  eexists. split; [reflexivity|].
  match goal with |- App.role (if ?b then _ else _) = _ => destruct b end;
    reflexivity.
Qed.

Lemma run_appends_user_and_assistant_turn_witness :
  let w' := App.handleSend Samples.parse
              (Samples.env_ok (Samples.replies (Some Samples.not_json)))
              (Samples.fresh "Studied algorithms") in
  (exists m,
      App.messages (App.state w')
      = [Samples.greeting;
         App.mkMessage App.user (JS.Str "Studied algorithms") None; m]
      /\ App.role m = App.assistant)
  /\ App.isLoading (App.state w') = false
  /\ App.input (App.state w') = "".
Proof.
  apply (run_appends_user_and_assistant_turn Samples.parse
           (Samples.env_ok (Samples.replies (Some Samples.not_json)))
           (Samples.fresh "Studied algorithms")); reflexivity.
Defined.

(** [handleSend] only ever appends: the turns and the stored entries of
    before are still there, in place; at most one row is added to the
    table and at most one entry to the front of the snapshot. *)
Theorem handleSend_only_appends :
  forall (JSON_parse : string -> option JS.value) (env : App.Env) (w : App.World),
    let w' := App.handleSend JSON_parse env w in
    Mirror.extends (App.messages (App.state w)) (App.messages (App.state w'))
    /\ Mirror.extends (Server.entries (App.db w)) (Server.entries (App.db w'))
    /\ (length (Server.entries (App.db w')) <= S (length (Server.entries (App.db w))))%nat
    /\ exists newer,
         App.entries (App.state w') = (newer ++ App.entries (App.state w))%list
         /\ (length newer <= 1)%nat.
Proof.
  intros JSON_parse env w w'. unfold w'.
  destruct (handleSend_cases JSON_parse env w) as [-> | (_ & _ & ->)].
  { repeat split.
    - exists []. now rewrite app_nil_r.
    - exists []. now rewrite app_nil_r.
    - lia.
    - exists []. split; [reflexivity | cbn; lia]. }
  split.
  { unfold Mirror.run_outcome. cbn. eexists. reflexivity. }
  destruct (run_outcome_entries env
              (diaryService.generateDiary JSON_parse (App.backend env)
                 (App.input (App.state w)) (App.preferences (App.state w))
                 (App.entries (App.state w))) w)
    as [[Hdb Hst] | (row & e & m & Hdb & Hst & _)]; rewrite Hdb, Hst.
  - repeat split.
    + exists []. now rewrite app_nil_r.
    + lia.
    + exists []. split; [reflexivity | cbn; lia].
  - repeat split.
    + now exists [row].
    + rewrite length_app. cbn. lia.
    + exists [e]. split; [reflexivity | cbn; lia].
Qed.




(** ** The snapshots mirror the store *)

Section ListingFacts.
Import JS JSObject Server PreferenceWrites.

Lemma set_keys_from k v x props :
  In x (map fst (set k v props)) ->
  (x = k /\ k <> "__proto__") \/ In x (map fst props).
Proof.
  unfold set. destruct (String.eqb_spec k "__proto__") as [->|Hne]; [now right|].
  rewrite define_keys. intros [->|H]; [left; now split | now right].
Qed.

Lemma fold_set_keys (rows : list PrefRow) :
  forall acc x,
    In x (map fst (fold_left
                     (fun acc curr => set (row_key curr) (Str (value curr)) acc)
                     rows acc)) ->
    x <> "__proto__" \/ In x (map fst acc).
Proof.
  induction rows as [|r rows IH]; intros acc x; cbn; [now right|].
  intros Hin. destruct (IH _ _ Hin) as [Hne | Hset]; [now left|].
  destruct (set_keys_from _ _ _ _ Hset) as [[-> Hne] | Hacc]; [now left | now right].
Qed.

Lemma fold_set_NoDup (rows : list PrefRow) :
  forall acc,
    NoDup (map fst acc) ->
    NoDup (map fst (fold_left
                      (fun acc curr => set (row_key curr) (Str (value curr)) acc)
                      rows acc)).
Proof.
  induction rows as [|r rows IH]; intros acc Hnd; cbn; [exact Hnd|].
  apply IH. now apply set_NoDup.
Qed.

Lemma get_preferences_NoDup (db : Db) : NoDup (map fst (get_preferences db)).
Proof. apply fold_set_NoDup. constructor. Qed.

Lemma get_preferences_no_proto (db : Db) :
  ~ In "__proto__" (map fst (get_preferences db)).
Proof.
  intros Hin. destruct (fold_set_keys _ _ _ Hin) as [Hne | []]. now apply Hne.
Qed.

Lemma listed_proto (db : Db) : listed "__proto__" db = None.
Proof. apply lookup_absent, get_preferences_no_proto. Qed.

Lemma latest_In k rows (v : string) :
  latest k rows = Some v ->
  exists row, In row rows /\ row_key row = k /\ value row = v.
Proof.
  induction rows as [|r rows IH]; cbn; [discriminate|].
  destruct (latest k rows) as [v'|].
  - intros H. destruct (IH H) as (row & Hin & Hrow). exists row. split; [now right | exact Hrow].
  - destruct (String.eqb_spec k (row_key r)) as [->|]; [|discriminate].
    intros H. inversion H. exists r. repeat split. now left.
Qed.


End ListingFacts.

(** [GET /api/preferences] answers an object with distinct keys, never
    the key [__proto__], and every pair in it is the key and the value of
    a stored row, the last one stored under that key. *)
Theorem listPreferences_is_sound :
  forall db : Server.Db,
    NoDup (map fst (Server.get_preferences db))
    /\ ~ In "__proto__" (map fst (Server.get_preferences db))
    /\ forall k v,
         PreferenceWrites.listed k db = Some v ->
         exists row,
           In row (Server.preferences db)
           /\ Server.row_key row = k
           /\ v = JS.Str (Server.value row)
           /\ PreferenceWrites.latest k (Server.preferences db)
              = Some (Server.value row).
Proof.
  intros db. split; [apply get_preferences_NoDup|].
  split; [apply get_preferences_no_proto|].
  intros k v Hlisted.
  destruct (String.eqb_spec k "__proto__") as [->|Hk].
  { rewrite listed_proto in Hlisted. discriminate. }
  rewrite (listed_latest k db Hk) in Hlisted.
  destruct (PreferenceWrites.latest k (Server.preferences db)) as [t|] eqn:Hlatest;
    [|discriminate].
  inversion Hlisted; subst v.
  destruct (latest_In _ _ _ Hlatest) as (row & Hin & Hkey & Hval).
  exists row. subst t. repeat split; assumption.
Qed.

Section PreferenceMirror.
Import JS diaryService App Mirror.


Variable JSON_parse : string -> option JS.value.


End PreferenceMirror.



Section EntryMirror.
Import JS diaryService App Mirror.



End EntryMirror.



(** ** Loading *)

Section LoadFacts.
Import JS JSObject diaryService App Mirror.

Lemma replace_In_from k v x props :
  In x (replace k v props) -> x = (k, v) \/ In x props.
Proof.
  induction props as [|[k0 w] props IH]; cbn; [tauto|].
  destruct (String.eqb_spec k k0) as [->|Hne]; cbn.
  - intros [<-|H]; [now left | right; now right].
  - intros [<-|H]; [right; now left|]. destruct (IH H); [now left | right; now right].
Qed.

Lemma define_In_from k v x props :
  In x (define k v props) -> x = (k, v) \/ In x props.
Proof.
  unfold define. destruct (has_key k props).
  - apply replace_In_from.
  - destruct (array_index k) as [i|].
    + now rewrite insert_index_In.
    + rewrite in_app_iff. cbn. intuition congruence.
Qed.

Lemma get_preferences_text (db : Server.Db) :
  forall kv, In kv (Server.get_preferences db) -> exists t, snd kv = Str t.
Proof.
  unfold Server.get_preferences.
  assert (H : forall rows acc,
             (forall kv, In kv acc -> exists t, snd kv = Str t) ->
             forall kv,
               In kv (fold_left
                        (fun acc curr =>
                           set (Server.row_key curr) (Str (Server.value curr)) acc)
                        rows acc) ->
               exists t, snd kv = Str t).
  { induction rows as [|r rows IH]; intros acc Hacc kv; cbn; [apply Hacc|].
    apply IH. intros kv' Hin. unfold set in Hin.
    destruct (String.eqb (Server.row_key r) "__proto__"); [now apply Hacc|].
    destruct (define_In_from _ _ _ _ Hin) as [-> | Hold]; [cbn; eauto | now apply Hacc]. }
  apply H. intros kv [].
Qed.

Lemma wire_text_object (props : list (string * JS.value)) :
  (forall kv, In kv props -> exists t, snd kv = Str t) ->
  wire (Obj props) = Obj props.
Proof.
  intros Htext. cbn. f_equal.
  induction props as [|[k v] props IH]; [reflexivity|].
  destruct (Htext (k, v) (or_introl eq_refl)) as [t Ht]. cbn in Ht. subst v.
  cbn. f_equal. apply IH. intros kv Hin. apply Htext. now right.
Qed.

Lemma fold_define_lookup k (props : list (string * JS.value)) :
  forall acc,
    NoDup (map fst props) -> NoDup (map fst acc) ->
    NoDup (map fst (fold_left (fun acc kv => define (fst kv) (snd kv) acc) props acc))
    /\ lookup k (fold_left (fun acc kv => define (fst kv) (snd kv) acc) props acc)
       = match lookup k props with
         | Some v => Some v
         | None => lookup k acc
         end.
Proof.
  induction props as [|[k0 v0] props IH]; intros acc Hprops Hacc; cbn.
  - now split.
  - inversion Hprops as [|? ? Hnotin Hrest]; subst.
    destruct (IH (define k0 v0 acc) Hrest (define_NoDup k0 v0 acc Hacc)) as [Hnd Hl].
    split; [exact Hnd|]. rewrite Hl.
    destruct (lookup k props); [reflexivity|].
    destruct (String.eqb_spec k k0) as [->|Hne].
    + now apply lookup_define_same.
    + now apply lookup_define_other.
Qed.

Lemma reparsed_listing (db : Server.Db) :
  NoDup (map fst (Loading.reparsed (Server.get_preferences db)))
  /\ forall k, lookup k (Loading.reparsed (Server.get_preferences db))
               = PreferenceWrites.listed k db.
Proof.
  unfold Loading.reparsed.
  rewrite (wire_text_object _ (get_preferences_text db)).
  split.
  - apply (fold_define_lookup "" _ []); [apply get_preferences_NoDup | constructor].
  - intros k.
    destruct (fold_define_lookup k (Server.get_preferences db) []
                (get_preferences_NoDup db) (NoDup_nil _)) as [_ ->].
    unfold PreferenceWrites.listed.
    now destruct (lookup k (Server.get_preferences db)).
Qed.

Lemma rows_mirrored (ts : Z -> string) (rows : list Server.EntryRow) :
  Forall2 same_entry (map (Loading.row_entry ts) rows) rows.
Proof.
  induction rows as [|r rows IH]; constructor; [|exact IH].
  repeat split.
Qed.

Lemma loadData_loaded (ts : Z -> string) (ms : list Message) (w : World) :
  let w' := Loading.loadData ts ms true true w in
  preferences (state w') = Loading.reparsed (Server.get_preferences (db w))
  /\ entries (state w') = map (Loading.row_entry ts) (Server.get_entries (db w))
  /\ db w' = db w.
Proof.
  cbv zeta. unfold Loading.loadData.
  cbn [Loading.getEntries Loading.getPreferences]. now destruct ms.
Qed.

End LoadFacts.

(** When both GET requests reach the server, [loadData] leaves the
    session with snapshots that mirror the store (preferences as
    [listPreferences()] answers them, entries as [listEntries()] lists
    them), without writing to the store or touching the input box and
    the loading flag; it puts the greeting in place of the turn sequence
    exactly when the turn sequence it holds on to is empty.  When either
    request is lost it changes nothing. *)
Theorem loadData_mirrors_the_store :
  forall (timestamp_text : Z -> string) (messages : list App.Message)
         (reached : bool) (w : App.World),
    let w' := Loading.loadData timestamp_text messages true true w in
    Mirror.preferences_mirrored w'
    /\ Mirror.entries_mirrored w'
    /\ App.db w' = App.db w
    /\ App.messages (App.state w')
       = match messages with
         | [] => [Loading.greeting]
         | _ :: _ => App.messages (App.state w)
         end
    /\ App.input (App.state w') = App.input (App.state w)
    /\ App.isLoading (App.state w') = App.isLoading (App.state w)
    /\ Loading.loadData timestamp_text messages false reached w = w
    /\ Loading.loadData timestamp_text messages reached false w = w.
Proof.
  intros ts messages reached w w'. unfold w', Loading.loadData.
  cbn [Loading.getEntries Loading.getPreferences].
  repeat split.
  - destruct messages; cbn; apply reparsed_listing.
  - destruct messages; cbn; apply reparsed_listing.
  - destruct messages; unfold Mirror.entries_mirrored; cbn; apply rows_mirrored.
  - now destruct messages.
  - now destruct messages.
  - now destruct messages.
  - now destruct messages.
  - now destruct reached.
Qed.

Section ContextFacts.
Import Server.

Lemma sorted_front_back {A} (R : A -> A -> Prop) (n : nat) :
  forall l, StronglySorted R l ->
            forall a b, In a (firstn n l) -> In b (skipn n l) -> R a b.
Proof.
  induction n as [|n IH]; intros l Hs a b Ha Hb; [destruct Ha|].
  destruct l as [|x l]; [destruct Ha|].
  inversion Hs as [|? ? Hrest Hall]; subst. cbn in Ha, Hb.
  destruct Ha as [<-|Ha].
  - rewrite Forall_forall in Hall. apply Hall.
    rewrite <- (firstn_skipn n l). apply in_app_iff. now right.
  - now apply (IH l).
Qed.

Lemma get_entries_sorted (db : Db) :
  StronglySorted (fun newer older => created_at older <= created_at newer)
    (get_entries db).
Proof.
  unfold get_entries. induction (entries db) as [|r rows IH]; cbn.
  - constructor.
  - now apply insert_desc_sorted.
Qed.

Lemma row_context_entry (ts : Z -> string) (r : EntryRow) :
  "Past Entry: " ++ JS.to_string (diaryService.summary (Loading.row_entry ts r)) ++ nl
  ++ "Learning: " ++ JS.to_string (diaryService.learning (Loading.row_entry ts r))
  = Loading.row_context r.
Proof.
  unfold Loading.row_context, Loading.row_entry. cbn.
  now destruct (summary r), (learning r).
Qed.

End ContextFacts.

(** After [loadData], the history block of the next prompt is made of
    the first three rows of [listEntries()], a NULL summary or learning
    written as "null", and no stored row left out of it is newer than a
    row shown in it. *)
Theorem context_holds_three_newest_rows :
  forall (timestamp_text : Z -> string) (messages : list App.Message)
         (w : App.World),
    let w' := Loading.loadData timestamp_text messages true true w in
    let listed := Server.get_entries (App.db w) in
    diaryService.historyString (App.entries (App.state w'))
      = JS.join (nl ++ nl) (map Loading.row_context (firstn 3 listed))
    /\ Forall (fun shown =>
                 Forall (fun later =>
                           Server.created_at later <= Server.created_at shown)
                        (skipn 3 listed))
              (firstn 3 listed).
Proof.
  intros ts messages w w' listed. split.
  - destruct (loadData_loaded ts messages w) as (_ & Hentries & _).
    unfold w'. rewrite Hentries. unfold diaryService.historyString.
    rewrite firstn_map, map_map. f_equal.
    apply map_ext. intros r. apply row_context_entry.
  - rewrite Forall_forall. intros shown Hshown.
    rewrite Forall_forall. intros later Hlater.
    exact (sorted_front_back _ 3 _ (get_entries_sorted (App.db w))
             shown later Hshown Hlater).
Qed.



(** ** Repeated writes and request bodies *)

Section Repeats.
Import Server.



End Repeats.



Section WireFacts.
Import JS diaryService.

(** Induction over values, with the elements of an array and the
    property values of an object as smaller values. *)
Lemma value_induction (P : JS.value -> Prop) :
  P Undefined -> P Null -> (forall b, P (Bool b)) -> (forall n, P (Num n)) ->
  (forall s, P (Str s)) ->
  (forall elems, Forall P elems -> P (Arr elems)) ->
  (forall props, Forall (fun kv => P (snd kv)) props -> P (Obj props)) ->
  forall v, P v.
Proof.
  intros HU HN HB HNum HS HA HO.
  fix IH 1. intros [| |b|n|s|elems|props].
  - exact HU.
  - exact HN.
  - apply HB.
  - apply HNum.
  - apply HS.
  - apply HA. induction elems as [|e elems IHe]; constructor; [apply IH | exact IHe].
  - apply HO. induction props as [|[k v] props IHp]; constructor;
      [apply IH | exact IHp].
Qed.

Lemma wire_object (props : list (string * JS.value)) :
  wire (Obj props) = Obj (Mirror.wire_props props).
Proof.
  reflexivity.
Qed.

Lemma wire_defined (v : JS.value) : wire v <> Undefined.
Proof.
  destruct v; cbn; try discriminate. now destruct (num_finite n).
Qed.

Lemma wire_twice (v : JS.value) : wire (wire v) = wire v.
Proof.
  induction v as [| |b|n|s|elems IH|props IH] using value_induction;
    try reflexivity.
  - cbn. destruct (num_finite n) eqn:Hf; cbn; [now rewrite Hf | reflexivity].
  - cbn. f_equal. rewrite map_map. apply map_ext_Forall. exact IH.
  - rewrite !wire_object. f_equal.
    induction props as [|[k v] props IHp]; [reflexivity|].
    inversion IH as [|? ? Hv Hrest]; subst. cbn in Hv.
    specialize (IHp Hrest).
    destruct v; cbn [Mirror.wire_props]; try (cbn; now rewrite IHp).
    + (* Num *)
      cbn. destruct (num_finite n) eqn:Hf; cbn; [rewrite Hf|]; now rewrite IHp.
    + (* Arr *)
      change (Arr (map wire elems)) with (wire (Arr elems)).
      rewrite Hv. cbn. now rewrite IHp.
    + (* Obj *)
      set (o := wire (Obj props0)) in *.
      assert (Ho : exists ps, o = Obj ps) by (unfold o; rewrite wire_object; eauto).
      destruct Ho as [ps Ho]. rewrite Ho in *. cbn [Mirror.wire_props].
      rewrite Hv. now rewrite IHp.
Qed.

End WireFacts.

(** What the server reads from a request body survives another trip
    unchanged, and it is never [undefined]: [JSON.stringify] followed by
    the body parser is idempotent. *)
Theorem wire_is_idempotent :
  forall v : JS.value,
    diaryService.wire (diaryService.wire v) = diaryService.wire v
    /\ diaryService.wire v <> JS.Undefined.
Proof.
  intros v. split; [apply wire_twice | apply wire_defined].
Qed.

(** ** The snapshot object, the send button and the session *)

(** The snapshot update [{ ...prev, [key]: value }] reads back: the key
    then holds the value, every other key holds what it held, the keys
    stay distinct, and the object grows by one property exactly when the
    key is new. *)
Theorem snapshot_update_reads_back :
  forall (k : string) (v : JS.value) (prev : list (string * JS.value)),
    NoDup (map fst prev) ->
    let next := JSObject.define k v prev in
    JS.lookup k next = Some v
    /\ (forall k', k' <> k -> JS.lookup k' next = JS.lookup k' prev)
    /\ NoDup (map fst next)
    /\ (length next = if JSObject.has_key k prev then length prev
                      else S (length prev)).
Proof.
  intros k v prev Hnd next. unfold next. repeat split.
  - now apply lookup_define_same.
  - intros k' Hne. now apply lookup_define_other.
  - now apply define_NoDup.
  - rewrite <- !(length_map fst).
    unfold JSObject.define. destruct (JSObject.has_key k prev).
    + now rewrite replace_keys.
    + destruct (JSObject.array_index k) as [i|].
      * clear Hnd. induction prev as [|[k0 w] prev IH]; cbn; [reflexivity|].
        destruct (JSObject.array_index k0) as [j|]; [destruct (j <? i)%Z|]; cbn;
          try reflexivity. now rewrite IH.
      * rewrite map_app, length_app. cbn. lia.
Qed.

Lemma snapshot_update_reads_back_witness :
  JS.lookup "pet"
    (JSObject.define "pet" (JS.Str "dog")
       [("favorite_subject", JS.Str "math"); ("pet", JS.Str "cat")])
  = Some (JS.Str "dog").
Proof.
  apply (snapshot_update_reads_back "pet" (JS.Str "dog")
           [("favorite_subject", JS.Str "math"); ("pet", JS.Str "cat")]).
  repeat constructor; cbn; intuition discriminate.
Defined.

(** The send button is disabled exactly when [handleSend] would return
    at its guard; when it is enabled a call starts a run on the text of
    the input box and disables the button until the run is over. *)
Theorem send_button_matches_guard :
  forall (JSON_parse : string -> option JS.value) (env : App.Env) (w : App.World),
    if View.send_disabled (App.state w)
    then App.begin w = None /\ App.handleSend JSON_parse env w = w
    else exists run w1,
           App.begin w = Some (run, w1)
           /\ App.userMessage run = App.input (App.state w)
           /\ View.send_disabled (App.state w1) = true.
Proof.
  intros JSON_parse env w. unfold View.send_disabled.
  destruct (blank (App.input (App.state w)) || App.isLoading (App.state w)) eqn:Hg.
  - split; [unfold App.begin; now rewrite Hg|].
    now apply handleSend_at_guard.
  - apply orb_false_iff in Hg. destruct Hg as [Hb Hl].
    rewrite (begin_passes w Hb Hl). eexists _, _. split; [reflexivity|].
    split; reflexivity.
Qed.

Section SessionFacts.
Import JS diaryService App Mirror Session.

Variable JSON_parse : string -> option JS.value.

Lemma extends_refl {A} (l : list A) : extends l l.
Proof. exists []. now rewrite app_nil_r. Qed.

Lemma extends_trans {A} (l1 l2 l3 : list A) :
  extends l1 l2 -> extends l2 l3 -> extends l1 l3.
Proof.
  intros [m1 ->] [m2 ->]. exists (m1 ++ m2)%list. now rewrite app_assoc.
Qed.

Lemma try_block_messages (env : Env) (msg : string) (prefs : UserPreferences)
  (es : list DiaryEntry) (w w' : World) (r : option unit) :
  try_block JSON_parse env msg prefs es w = (w', r) ->
  extends (messages (state w)) (messages (state w')).
Proof.
  unfold try_block, Exn.bind at 1, Exn.lift at 1.
  destruct (generateDiary JSON_parse (backend env) msg prefs es) as [result|].
  2:{ intros H. inversion H. apply extends_refl. }
  unfold Exn.bind at 1. rewrite update_preferences_block_run.
  assert (Hreply : forall w3 w4 r4,
             append_reply result w3 = (w4, r4) ->
             extends (messages (state w3)) (messages (state w4))).
  { intros w3 w4 r4. unfold append_reply, Exn.bind, Exn.lift, Exn.modify.
    destruct (get result "chatResponse"); [|intros H; inversion H; apply extends_refl].
    destruct (get result "summary"); [|intros H; inversion H; apply extends_refl].
    destruct (get result "learning"); [|intros H; inversion H; apply extends_refl].
    intros H. inversion H. cbn. eexists. reflexivity. }
  assert (Hcreate : forall w2 w3 r3,
             create_entry_block env msg result w2 = (w3, r3) ->
             messages (state w3) = messages (state w2)).
  { intros w2 w3 r3.
    destruct (get result "summary") as [s|] eqn:Hs.
    2:{ unfold create_entry_block, Exn.bind, Exn.lift. rewrite Hs.
        intros H. now inversion H. }
    destruct (get_total result "summary" "learning" s Hs) as [l Hl].
    rewrite (create_entry_block_effect env msg result s l w2 Hs Hl).
    destruct (truthy s && truthy l); [|intros H; now inversion H].
    destruct (entry_reached env); [|intros H; now inversion H].
    destruct (Server.bind_text (wire s)); [|intros H; now inversion H].
    destruct (Server.bind_text (wire l)); intros H; now inversion H. }
  assert (Hrest : forall w2,
             messages (state w2) = messages (state w) ->
             Exn.bind (create_entry_block env msg result)
                      (fun _ => append_reply result) w2 = (w', r) ->
             extends (messages (state w)) (messages (state w'))).
  { intros w2 Hw2. unfold Exn.bind.
    destruct (create_entry_block env msg result w2) as [w3 [[]|]] eqn:Hc.
    - intros H. rewrite <- Hw2, <- (Hcreate _ _ _ Hc). now apply (Hreply w3 w' r).
    - intros H. inversion H; subst. rewrite (Hcreate _ _ _ Hc), Hw2.
      apply extends_refl. }
  destruct (get result "updatedPreferences").
  2:{ intros H. inversion H. apply extends_refl. }
  destruct (upsert_attempted result).
  - destruct (pref_reached env).
    + apply Hrest. reflexivity.
    + intros H. inversion H. apply extends_refl.
  - apply Hrest. reflexivity.
Qed.

Lemma finish_only_appends (env : Env) (msg : string) (prefs : UserPreferences)
  (es : list DiaryEntry) (w : World) :
  let w' := try_catch_finally JSON_parse env msg prefs es w in
  extends (messages (state w)) (messages (state w'))
  /\ extends (Server.entries (db w)) (Server.entries (db w')).
Proof.
  cbv zeta. split.
  - unfold try_catch_finally.
    destruct (try_block JSON_parse env msg prefs es w) as [w1 r] eqn:Htry.
    pose proof (try_block_messages _ _ _ _ _ _ _ Htry) as Hext.
    destruct r as [[]|]; cbn; [exact Hext|].
    apply (extends_trans _ _ _ Hext). eexists. reflexivity.
  - rewrite finish_db.
    destruct (try_block JSON_parse env msg prefs es w) as [w1 r] eqn:Htry.
    cbn [fst].
    destruct (try_block_entries _ _ _ _ _ _ _ _ Htry)
      as [-> | (? & ? & ? & ? & ? & _ & _ & _ & _ & _ & _ & _ & ->)].
    + apply extends_refl.
    + eexists. reflexivity.
Qed.

Lemma step_only_appends (s : Session) (e : Event) :
  extends (messages (state (world s)))
          (messages (state (world (step JSON_parse s e))))
  /\ extends (Server.entries (db (world s)))
             (Server.entries (db (world (step JSON_parse s e)))).
Proof.
  destruct e as [text | | i env]; cbn [step].
  - split; apply extends_refl.
  - destruct (begin (world s)) as [[run w']|] eqn:Hbegin.
    + destruct (begin_guard _ _ _ Hbegin) as [Hb Hl].
      rewrite (begin_passes _ Hb Hl) in Hbegin. inversion Hbegin; subst. cbn.
      split; [eexists; reflexivity | apply extends_refl].
    + split; apply extends_refl.
  - destruct (nth_error (in_flight s) i) as [run|].
    + cbn [world]. apply finish_only_appends.
    + split; apply extends_refl.
Qed.

End SessionFacts.

(** Over any sequence of typing, send and settle events the turn
    sequence and the entries table only grow: what was there stays, in
    place, whatever the runs meet and whether or not they overlap. *)
Theorem session_only_appends :
  forall (JSON_parse : string -> option JS.value) (events : list Session.Event)
         (s : Session.Session),
    let s' := Session.run_events JSON_parse s events in
    Mirror.extends (App.messages (App.state (Session.world s)))
                   (App.messages (App.state (Session.world s')))
    /\ Mirror.extends (Server.entries (App.db (Session.world s)))
                      (Server.entries (App.db (Session.world s'))).
Proof.
  intros JSON_parse events. induction events as [|e events IH]; intros s; cbn.
  - split; apply extends_refl.
  - destruct (step_only_appends JSON_parse s e) as [Hm He].
    destruct (IH (Session.step JSON_parse s e)) as [Hm' He'].
    split; eapply extends_trans; eassumption.
Qed.

Lemma blank_no_visible_bounded (n : nat) :
  forall s, (String.length s <= n)%nat -> blank s = true ->
            View.has_visible_ascii s = false.
Proof.
  induction n as [|n IH]; intros s Hlen.
  - destruct s; [reflexivity | cbn in Hlen; lia].
  - destruct s as [|a r1]; [reflexivity|]. cbn [blank View.has_visible_ascii].
    cbn in Hlen.
    destruct (ws1 (code a)) eqn:Hws.
    + intros Hb. rewrite (IH r1) by (lia || assumption).
      unfold ws1 in Hws. rewrite orb_false_r. lia.
    + destruct r1 as [|b r2]; [discriminate|]. cbn in Hlen.
      destruct ((code a =? 194) && (code b =? 160)) eqn:Hnb.
      * intros Hb. cbn [View.has_visible_ascii]. rewrite (IH r2) by (lia || assumption).
        lia.
      * destruct r2 as [|c r3]; [discriminate|]. cbn in Hlen.
        destruct (ws3 (code a) (code b) (code c)) eqn:H3; [|discriminate].
        intros Hb. cbn [View.has_visible_ascii]. rewrite (IH r3) by (lia || assumption).
        unfold ws3 in H3. lia.
Qed.

(** A text that holds a printable ASCII character other than the space
    is never taken for blank: with the loading flag down, [handleSend]
    starts a run on it. *)
Theorem visible_text_passes_the_guard :
  forall (w : App.World),
    View.has_visible_ascii (App.input (App.state w)) = true ->
    App.isLoading (App.state w) = false ->
    blank (App.input (App.state w)) = false
    /\ View.send_disabled (App.state w) = false
    /\ exists run w1,
         App.begin w = Some (run, w1)
         /\ App.userMessage run = App.input (App.state w).
Proof.
  intros w Hv Hl.
  assert (Hb : blank (App.input (App.state w)) = false).
  { destruct (blank (App.input (App.state w))) eqn:Hb; [|reflexivity].
    rewrite (blank_no_visible_bounded _ _ (le_n _) Hb) in Hv. discriminate. }
  split; [exact Hb|]. split; [unfold View.send_disabled; now rewrite Hb, Hl|].
  rewrite (begin_passes w Hb Hl). eexists _, _. split; reflexivity.
Qed.

Lemma visible_text_passes_the_guard_witness :
  blank "  ok " = false
  /\ View.send_disabled (App.state (Samples.fresh "  ok ")) = false
  /\ exists run w1,
       App.begin (Samples.fresh "  ok ") = Some (run, w1)
       /\ App.userMessage run = "  ok ".
Proof.
  apply (visible_text_passes_the_guard (Samples.fresh "  ok ")); reflexivity.
Defined.
